(** * weekly-report: the docx placeholder engine and the export route

    A shallow embedding of [src/main.py]: [render_docx_template] with its
    inner [replace_in_paragraph], and the part of [export_report] that
    builds the placeholder context, formats the download file name and
    calls the renderer.

    Conventions.
    - A Python [str] is a [string]; a character outside ASCII is the
      sequence of its UTF-8 bytes.  UTF-8 is self-synchronising, so
      searching and replacing well-formed text gives the same answer on
      bytes as on code points, and the braces the code looks for are ASCII.
    - python-docx and [str.format] are libraries, not code of this
      repository.  What the program relies on is written out next to the
      definition that uses it. *)

From Stdlib Require Import Ascii String ZArith.
From stdpp Require Import base option list strings gmap.

Local Open Scope string_scope.
Local Open Scope list_scope.

(** ** Python string operations used by the program *)

Module PyStr.

(** [s.startswith(old)]. *)
Definition startswith (old s : string) : bool := String.prefix old s.

(** [old in s]: [old] starts at some position of [s]. *)
Fixpoint contains (old s : string) : bool :=
  startswith old s ||
  match s with
  | EmptyString => false
  | String _ s' => contains old s'
  end.

(** [s.replace("", new)] puts [new] before every character and at the
    end. *)
Fixpoint interleave (new s : string) : string :=
  match s with
  | EmptyString => new
  | String c s' => new +:+ String c (interleave new s')
  end.

(** The left-to-right scan of [s.replace(old, new)] for a non-empty
    [old].  [skip] counts the characters of the match just replaced that
    are still to be passed over, so that matches do not overlap. *)
Fixpoint replace_scan (skip : nat) (old new s : string) : string :=
  match s with
  | EmptyString => EmptyString
  | String c s' =>
      match skip with
      | S k => replace_scan k old new s'
      | O =>
          if startswith old s
          then new +:+ replace_scan (String.length old - 1) old new s'
          else String c (replace_scan 0 old new s')
      end
  end.

(** [s.replace(old, new)]: every non-overlapping occurrence, leftmost
    first. *)
Definition replace (old new s : string) : string :=
  match old with
  | EmptyString => interleave new s
  | String _ _ => replace_scan 0 old new s
  end.

(** [x or default] on an optional string: [None] and [""] are falsy. *)
Definition or_else (x : option string) (default : string) : string :=
  match x with
  | Some (String c s) => String c s
  | _ => default
  end.

End PyStr.

(** ** The document, as python-docx presents it

    A paragraph owns a list of runs; [paragraph.text] reads the
    concatenation of the run texts, and assigning to it removes every run
    and adds one run, without character formatting, that holds the new text.
    Paragraph-level properties survive the assignment. *)

Record Run := mkRun { run_text : string; run_format : nat }.

Record Paragraph := mkParagraph { paragraph_format : nat; runs : list Run }.

Definition plain_run (t : string) : Run := mkRun t 0.

Definition paragraph_text (p : Paragraph) : string :=
  foldr (fun r acc => run_text r +:+ acc) "" (runs p).

Definition set_paragraph_text (p : Paragraph) (t : string) : Paragraph :=
  mkParagraph (paragraph_format p) [plain_run t].

(** The context is a [dict] with string keys; iteration follows insertion
    order, so it is kept as an association list. *)
Definition Context := list (string * string).

Definition placeholder (key : string) : string := "{{" +:+ key +:+ "}}".

(** One turn of the loop [for key, value in context.items()]. *)
Definition replace_key (new_text : string) (kv : string * string) : string :=
  let placeholder := placeholder kv.1 in
  if PyStr.contains placeholder new_text
  then PyStr.replace placeholder kv.2 new_text
  else new_text.

(** The value of [new_text] after the loop. *)
Definition substitute (context : Context) (text : string) : string :=
  foldl replace_key text context.

(** [replace_in_paragraph], the closure inside [render_docx_template]. *)
Definition replace_in_paragraph (context : Context) (paragraph : Paragraph)
  : Paragraph :=
  let text := paragraph_text paragraph in
  match text with
  | EmptyString => paragraph
  | String _ _ =>
      let new_text := substitute context text in
      if decide (new_text = text) then paragraph
      else set_paragraph_text paragraph new_text
  end.

(** ** The regions that [render_docx_template] walks

    python-docx hands out proxies of the elements of one document tree, and
    it can hand out the same element more than once: [row.cells] repeats a
    merged cell once per grid column, and [section.header] of a section
    linked to the previous one is that section's header.  The paragraphs
    therefore live in one store, [doc_store], and every region lists the
    positions of its paragraphs there; a position may occur several times.
    Elements the walk never reaches (tables nested in a cell, first-page
    headers and the like) are paragraphs of the store that no region lists. *)

Record Cell := mkCell { cell_paragraphs : list nat }.
Record Row := mkRow { row_cells : list Cell }.
Record Table := mkTable { table_rows : list Row }.

Record HeaderFooter := mkHeaderFooter {
  hf_paragraphs : list nat;
  hf_tables : list Table
}.

Record Section := mkSection {
  section_header : HeaderFooter;
  section_footer : HeaderFooter
}.

Record Document := mkDocument {
  doc_store : list Paragraph;
  doc_paragraphs : list nat;
  doc_tables : list Table;
  doc_sections : list Section
}.

Section Render.

Variable context : Context.

(** [replace_in_paragraph(p)] for the paragraph stored at [i]. *)
Definition visit (store : list Paragraph) (i : nat) : list Paragraph :=
  alter (replace_in_paragraph context) i store.

(** [for p in ....paragraphs: replace_in_paragraph(p)] *)
Definition render_paragraphs (store : list Paragraph) (ps : list nat)
  : list Paragraph :=
  foldl visit store ps.

(** [for table in ....tables: for row in table.rows:
       for cell in row.cells: for p in cell.paragraphs: ...] *)
Definition render_tables (store : list Paragraph) (ts : list Table)
  : list Paragraph :=
  foldl (fun store table =>
    foldl (fun store row =>
      foldl (fun store cell => render_paragraphs store (cell_paragraphs cell))
            store (row_cells row))
      store (table_rows table))
    store ts.

Definition render_header_footer (store : list Paragraph) (hf : HeaderFooter)
  : list Paragraph :=
  render_tables (render_paragraphs store (hf_paragraphs hf)) (hf_tables hf).

(** [for section in doc.sections:] the header, then the footer. *)
Definition render_sections (store : list Paragraph) (ss : list Section)
  : list Paragraph :=
  foldl (fun store section =>
    render_header_footer
      (render_header_footer store (section_header section))
      (section_footer section))
    store ss.

(** The three numbered steps of [render_docx_template] between
    [Document(template_path)] and [doc.save(output_path)]. *)
Definition render_document (doc : Document) : Document :=
  let store := render_paragraphs (doc_store doc) (doc_paragraphs doc) in
  let store := render_tables store (doc_tables doc) in
  let store := render_sections store (doc_sections doc) in
  mkDocument store (doc_paragraphs doc) (doc_tables doc) (doc_sections doc).

End Render.

(** The positions handed to [replace_in_paragraph], in the order of the
    walk. *)
Definition table_visits (ts : list Table) : list nat :=
  t ← ts; r ← table_rows t; c ← row_cells r; cell_paragraphs c.

Definition header_footer_visits (hf : HeaderFooter) : list nat :=
  hf_paragraphs hf ++ table_visits (hf_tables hf).

Definition section_visits (ss : list Section) : list nat :=
  s ← ss;
  header_footer_visits (section_header s) ++
  header_footer_visits (section_footer s).

Definition visits (doc : Document) : list nat :=
  doc_paragraphs doc ++ table_visits (doc_tables doc) ++
  section_visits (doc_sections doc).

(** ** Files

    A file either holds a document package, which [Document(path)] loads, or
    bytes that python-docx cannot read.  [doc.save(path)] stores the package
    of the tree; writing is taken to succeed.  The map is keyed by the text
    of the path. *)

Inductive File :=
| Package (doc : Document)
| Malformed (raw : list Byte.byte).

Inductive Exception :=
| TemplateLoadError
| FormatError.

Inductive Outcome (A : Type) :=
| Return (a : A)
| Raise (e : Exception).
Arguments Return {A} a.
Arguments Raise {A} e.

Definition render_docx_template
    (fs : gmap string File) (template_path : string) (context : Context)
    (output_path : string) : Outcome unit * gmap string File :=
  match fs !! template_path with
  | Some (Package doc) =>
      let doc := render_document context doc in
      (Return tt, <[output_path := Package doc]> fs)
  | _ => (Raise TemplateLoadError, fs)
  end.

(** ** [str.format] with keyword arguments only

    [cfg.filename_pattern.format(NAME=..., DATE=...)] runs CPython's format
    string scanner over the pattern and fills in each replacement field as
    it meets it.  [ValueError] (a malformed pattern), [KeyError] (an unknown
    keyword) and [IndexError] (a positional field: the call has no
    positional argument) are all [FormatError] here. *)

Record Field := mkField {
  field_name : string;
  conversion : option ascii;
  format_spec : string
}.

Inductive Markup :=
| Literal (c : ascii)
| Replacement (f : Field).

(** Where the scanner is: in literal text, in a field name, inside the
    brackets of an index, just after [!], after the conversion character,
    or in a format specification with [nested] braces still open. *)
Inductive ScanState :=
| InText
| InName (acc : string)
| InIndex (acc : string)
| AtConversion (field : string)
| AfterConversion (field : string) (conv : ascii)
| InSpec (field : string) (conv : option ascii) (acc : string) (nested : nat).

Definition snoc (s : string) (c : ascii) : string := s +:+ String c "".

Definition emit (m : Markup) (r : list Markup * bool) : list Markup * bool :=
  (m :: r.1, r.2).

(** The markup read up to the end of the pattern or to the first syntax
    error; the flag tells whether the scan stopped on an error. *)
Fixpoint scan (st : ScanState) (s : string) : list Markup * bool :=
  match s with
  | EmptyString =>
      match st with
      | InText => ([], false)
      | _ => ([], true)
      end
  | String c s' =>
      match st with
      | InText =>
          if Ascii.eqb c "{" then
            match s' with
            | EmptyString => ([], true)
            | String c' s'' =>
                if Ascii.eqb c' "{" then emit (Literal "{") (scan InText s'')
                else scan (InName "") s'
            end
          else if Ascii.eqb c "}" then
            match s' with
            | EmptyString => ([], true)
            | String c' s'' =>
                if Ascii.eqb c' "}" then emit (Literal "}") (scan InText s'')
                else ([], true)
            end
          else emit (Literal c) (scan InText s')
      | InName acc =>
          if Ascii.eqb c "{" then ([], true)
          else if Ascii.eqb c "[" then scan (InIndex (snoc acc c)) s'
          else if Ascii.eqb c "}" then
            emit (Replacement (mkField acc None "")) (scan InText s')
          else if Ascii.eqb c ":" then scan (InSpec acc None "" 0) s'
          else if Ascii.eqb c "!" then scan (AtConversion acc) s'
          else scan (InName (snoc acc c)) s'
      | InIndex acc =>
          if Ascii.eqb c "]" then scan (InName (snoc acc c)) s'
          else scan (InIndex (snoc acc c)) s'
      | AtConversion field => scan (AfterConversion field c) s'
      | AfterConversion field conv =>
          if Ascii.eqb c "}" then
            emit (Replacement (mkField field (Some conv) "")) (scan InText s')
          else if Ascii.eqb c ":" then scan (InSpec field (Some conv) "" 0) s'
          else ([], true)
      | InSpec field conv acc nested =>
          if Ascii.eqb c "{" then scan (InSpec field conv (snoc acc c) (S nested)) s'
          else if Ascii.eqb c "}" then
            match nested with
            | O => emit (Replacement (mkField field conv acc)) (scan InText s')
            | S n => scan (InSpec field conv (snoc acc c) n) s'
            end
          else scan (InSpec field conv (snoc acc c) nested) s'
      end
  end.

(** The part of a field name before the first [.] or [[]: the argument the
    field refers to. *)
Fixpoint arg_name (field_name : string) : string :=
  match field_name with
  | EmptyString => EmptyString
  | String c s =>
      if Ascii.eqb c "." || Ascii.eqb c "[" then EmptyString
      else String c (arg_name s)
  end.

(** A field that is an argument name and nothing else: no attribute or
    index, no conversion, an empty format specification. *)
Definition plain (f : Field) : bool :=
  String.eqb (arg_name (field_name f)) (field_name f) &&
  match conversion f with None => true | Some _ => false end &&
  String.eqb (format_spec f) "".

Section Format.

(** What CPython makes of a field that is not [plain], given the keyword
    arguments and the argument the field names: attribute and index
    lookups, [!r] and the other conversions, and the format
    specification mini-language; [None] when that raises.  None of it
    is written out here. *)
Variable format_extended :
  gmap string string -> string -> Field -> option string.

(** The argument is looked up first.  An empty or numeric name is
    positional and finds nothing, as does a keyword that was not passed.
    A plain field of a [str] argument formats as the argument itself. *)
Definition format_field (kwargs : gmap string string) (f : Field)
  : Outcome string :=
  match kwargs !! arg_name (field_name f) with
  | None => Raise FormatError
  | Some obj =>
      if plain f then Return obj
      else match format_extended kwargs obj f with
           | Some s => Return s
           | None => Raise FormatError
           end
  end.

Fixpoint vformat (kwargs : gmap string string) (ms : list Markup)
  : Outcome string :=
  match ms with
  | [] => Return ""
  | Literal c :: ms =>
      match vformat kwargs ms with
      | Return s => Return (String c s)
      | Raise e => Raise e
      end
  | Replacement f :: ms =>
      match format_field kwargs f with
      | Return v =>
          match vformat kwargs ms with
          | Return s => Return (v +:+ s)
          | Raise e => Raise e
          end
      | Raise e => Raise e
      end
  end.

(** [pattern.format] applied to the keyword arguments [kwargs]. *)
Definition str_format (pattern : string) (kwargs : gmap string string)
  : Outcome string :=
  let '(ms, syntax_error) := scan InText pattern in
  match vformat kwargs ms with
  | Return s => if syntax_error then Raise FormatError else Return s
  | Raise e => Raise e
  end.

End Format.

(** ** The report record and the export route *)

Record Date := mkDate { year : nat; month : nat; day : nat }.

Definition digit (n : nat) : ascii := ascii_of_nat (48 + n mod 10).

(** The last [width] decimal digits of [n].  A [datetime.date] has a year
    of at most 9999, a month of at most 12 and a day of at most 31, so
    [isoformat] never needs more than the width it pads to. *)
Fixpoint zero_padded (width n : nat) : string :=
  match width with
  | O => ""
  | S w => snoc (zero_padded w (n / 10)) (digit n)
  end.

Definition isoformat (d : Date) : string :=
  zero_padded 4 (year d) +:+ "-" +:+ zero_padded 2 (month d) +:+ "-" +:+
  zero_padded 2 (day d).

Record WeeklyReport := mkWeeklyReport {
  name : option string;
  date : Date;
  summary : option string;
  plan : option string
}.

Inductive Response :=
| RedirectToSettings
| SendFile (path : string) (download_name : string).

(** [dir / name] of [pathlib]: an absolute [name] replaces [dir]. *)
Definition path_join (dir filename : string) : string :=
  if PyStr.startswith "/" filename then filename
  else dir +:+ "/" +:+ filename.

(** The dictionary [context] built in [export_report]. *)
Definition export_context (report : WeeklyReport) : Context :=
  [ ("NAME", PyStr.or_else (name report) "");
    ("DATE", isoformat (date report));
    ("SUMMARY", PyStr.or_else (summary report) "");
    ("PLAN", PyStr.or_else (plan report) "") ].

Definition safe_name (report : WeeklyReport) : string :=
  PyStr.or_else (name report) "未命名".

Definition filename_kwargs (report : WeeklyReport) : gmap string string :=
  {[ "NAME" := safe_name report; "DATE" := isoformat (date report) ]}.

Definition default_filename_pattern : string := "{DATE}_{NAME}_周报.docx".

Section ExportRoute.

Variable format_extended :
  gmap string string -> string -> Field -> option string.

(** [BASE_DIR], the directory of [main.py]. *)
Variable BASE_DIR : string.

Definition UPLOAD_DIR : string := path_join BASE_DIR "data".

Definition get_template_path : string :=
  path_join UPLOAD_DIR "weekly_report_template.docx".

Definition has_template (fs : gmap string File) : bool :=
  bool_decide (is_Some (fs !! get_template_path)).

Definition export_filename (filename_pattern : string)
    (report : WeeklyReport) : Outcome string :=
  str_format format_extended filename_pattern (filename_kwargs report).

(** [export_report], from the record that [get_or_404] found and the
    pattern of the one [ExportConfig] row. *)
Definition export_report (fs : gmap string File) (report : WeeklyReport)
    (filename_pattern : string) : Outcome Response * gmap string File :=
  if negb (has_template fs) then (Return RedirectToSettings, fs)
  else
    let context := export_context report in
    match export_filename filename_pattern report with
    | Raise e => (Raise e, fs)
    | Return filename =>
        let output_path := path_join UPLOAD_DIR filename in
        match render_docx_template fs get_template_path context output_path with
        | (Return _, fs') => (Return (SendFile output_path filename), fs')
        | (Raise e, fs') => (Raise e, fs')
        end
    end.

End ExportRoute.

(** A stand-in for the unmodelled part of [str.format], for running
    examples: it is never reached on plain fields. *)
Definition no_extended (_ : gmap string string) (_ : string) (_ : Field)
  : option string := None.

(** The rest of the pattern, formatted, after [v] was produced. *)
Definition then_rest (v : string) (rest : Outcome string) : Outcome string :=
  match rest with
  | Return r => Return (v +:+ r)
  | Raise e => Raise e
  end.

(** ** When can an occurrence of one string run into another? *)

(** The non-empty suffixes of [s], longest first. *)
Fixpoint tails (s : string) : list string :=
  match s with
  | EmptyString => []
  | String _ s' => s :: tails s'
  end.

(** One of the two strings starts the other. *)
Definition compatible (x y : string) : bool :=
  PyStr.startswith x y || PyStr.startswith y x.

(** No occurrence of [old] that begins before [mid] reaches into it. *)
Definition no_overrun (old mid : string) : bool :=
  match old with
  | EmptyString => true
  | String _ old' => forallb (fun v => negb (compatible v mid)) (tails old')
  end.

(** No occurrence of [old] begins inside [mid]. *)
Definition no_start_within (old mid : string) : bool :=
  forallb (fun m => negb (compatible old m)) (tails mid).

(** [old] and [mid] cannot overlap, whatever surrounds [mid]. *)
Definition apart (old mid : string) : bool :=
  no_overrun old mid && no_start_within old mid.

(** How often the walk hands the paragraph stored at [i] to
    [replace_in_paragraph]. *)
Fixpoint times_visited (i : nat) (l : list nat) : nat :=
  match l with
  | [] => 0
  | j :: l => (if decide (j = i) then 1 else 0) + times_visited i l
  end.

(** The keys of the context that [export_report] builds, in the order the
    loop meets them. *)
Definition recognized_keys : list string := ["NAME"; "DATE"; "SUMMARY"; "PLAN"].

(** No placeholder of [context] occurs in [text]. *)
Definition no_placeholder (context : Context) (text : string) : Prop :=
  Forall (fun kv => PyStr.contains (placeholder kv.1) text = false) context.

(** ** Patterns cut into pieces *)

(** What a pattern is made of when every brace in it belongs to one of
    the two fields or to a doubled brace. *)
Inductive Piece :=
| Text (s : string)
| OpenBrace
| CloseBrace
| NameField
| DateField.

Fixpoint brace_free (s : string) : bool :=
  match s with
  | EmptyString => true
  | String c s' =>
      negb (Ascii.eqb c "{") && negb (Ascii.eqb c "}") && brace_free s'
  end.

Definition well_formed (pc : Piece) : bool :=
  match pc with
  | Text s => brace_free s
  | _ => true
  end.

Definition piece_pattern (pc : Piece) : string :=
  match pc with
  | Text s => s
  | OpenBrace => "{{"
  | CloseBrace => "}}"
  | NameField => "{NAME}"
  | DateField => "{DATE}"
  end.

Definition piece_output (name_value date_value : string) (pc : Piece) : string :=
  match pc with
  | Text s => s
  | OpenBrace => "{"
  | CloseBrace => "}"
  | NameField => name_value
  | DateField => date_value
  end.

Definition pattern_of (pieces : list Piece) : string :=
  foldr (fun pc acc => piece_pattern pc +:+ acc) "" pieces.

Definition output_of (name_value date_value : string) (pieces : list Piece)
  : string :=
  foldr (fun pc acc => piece_output name_value date_value pc +:+ acc) "" pieces.

(** Follows the spec's words (4.2, FilenameFormatter): one pass over the
    pattern that replaces the exact tokens [{NAME}] and [{DATE}] and knows
    no escape. *)
Fixpoint exact_token_scan (skip : nat) (name_value date_value s : string)
  : string :=
  match s with
  | EmptyString => EmptyString
  | String c s' =>
      match skip with
      | S k => exact_token_scan k name_value date_value s'
      | O =>
          if PyStr.startswith "{NAME}" s
          then name_value +:+ exact_token_scan 5 name_value date_value s'
          else if PyStr.startswith "{DATE}" s
          then date_value +:+ exact_token_scan 5 name_value date_value s'
          else String c (exact_token_scan 0 name_value date_value s')
      end
  end.

Definition exact_token_replacement (pattern name_value date_value : string)
  : string :=
  exact_token_scan 0 name_value date_value pattern.

(** ** A sample template and sample reports *)

(** A template that exercises every region: a body paragraph whose
    placeholder is cut by a run boundary, a table with a merged cell (its
    paragraph is met twice), an empty header paragraph and a footer. *)
Definition sample_document : Document :=
  mkDocument
    [ mkParagraph 1 [mkRun "姓名：{{NA" 1; mkRun "ME}}　日期：{{DATE}}" 2];
      mkParagraph 0 [mkRun "本周" 3; mkRun "总结" 4];
      mkParagraph 0 [mkRun "{{SUMMARY}}" 0];
      mkParagraph 2 [];
      mkParagraph 0 [mkRun "{{PLAN}}" 5] ]
    [0]
    [mkTable [mkRow [mkCell [1]; mkCell [2]; mkCell [2]]]]
    [mkSection (mkHeaderFooter [3] []) (mkHeaderFooter [4] [])].

Definition sample_report : WeeklyReport :=
  mkWeeklyReport (Some "张三") (mkDate 2024 5 1) (Some "完成导出") (Some "联调").

(** A report whose name quotes the placeholder of a later key, and whose
    summary quotes that of an earlier one. *)
Definition quoting_report : WeeklyReport :=
  mkWeeklyReport (Some "见{{PLAN}}") (mkDate 2024 5 1) (Some "{{NAME}}")
    (Some "联调").

Definition one_paragraph (text : string) : Document :=
  mkDocument [mkParagraph 0 [mkRun text 0]] [0] [] [].

Definition sample_files : gmap string File :=
  {[ "/srv/app/data/weekly_report_template.docx" := Package sample_document ]}.

Definition broken_files : gmap string File :=
  {[ "/srv/app/data/weekly_report_template.docx" := Malformed [] ]}.

(** ** The database and the other routes

    The routes work on three things: the rows of [weekly_reports], the
    pattern of the one [ExportConfig] row ([None] while [init_db] has not
    created it), and the files of [UPLOAD_DIR].  The state below is what is
    committed: Flask-SQLAlchemy drops the session when the request ends, so
    an attribute assigned without a later [db.session.commit()] is lost. *)

Record AppState := mkAppState {
  reports : gmap nat WeeklyReport;
  export_config : option string;
  files : gmap string File
}.

(** [init_db], after the tables exist: one [ExportConfig] row is added if
    there is none. *)
Definition init_db (st : AppState) : AppState :=
  match export_config st with
  | Some _ => st
  | None => mkAppState (reports st) (Some default_filename_pattern) (files st)
  end.

(** The greatest [id] in the table, 0 for an empty table. *)
Definition max_id (rows : gmap nat WeeklyReport) : nat :=
  max_list (elements (dom rows)).

(** [order_by(WeeklyReport.id.desc()).first()] *)
Definition last_report (rows : gmap nat WeeklyReport) : option WeeklyReport :=
  rows !! max_id rows.

(** [get_last_name] *)
Definition get_last_name (st : AppState) : string :=
  match last_report (reports st) with
  | Some last => PyStr.or_else (name last) ""
  | None => ""
  end.

(** The [id] SQLite gives a new row of a table whose key is an [INTEGER
    PRIMARY KEY]: one more than the greatest in the table, 1 in an empty
    one. *)
Definition next_id (rows : gmap nat WeeklyReport) : nat := S (max_id rows).

(** [s.split(sep)] for a separator of one character. *)
Fixpoint split_char (sep : ascii) (s : string) : list string :=
  match s with
  | EmptyString => [EmptyString]
  | String c s' =>
      if Ascii.eqb c sep then EmptyString :: split_char sep s'
      else match split_char sep s' with
           | head :: rest => String c head :: rest
           | [] => [String c EmptyString]
           end
  end.

Definition is_digit (c : ascii) : bool :=
  ((48 <=? nat_of_ascii c) && (nat_of_ascii c <=? 57))%nat.

Definition digit_value (c : ascii) : Z := Z.of_nat (nat_of_ascii c - 48).

Fixpoint all_digits (s : string) : bool :=
  match s with
  | EmptyString => true
  | String c s' => is_digit c && all_digits s'
  end.

Fixpoint decimal_value (acc : Z) (s : string) : Z :=
  match s with
  | EmptyString => acc
  | String c s' => decimal_value (acc * 10 + digit_value c)%Z s'
  end.

(** The leap years of the proleptic Gregorian calendar, and the days of
    each month, as [datetime] has them. *)
Definition is_leap (y : Z) : bool :=
  ((y mod 4 =? 0) && (negb (y mod 100 =? 0) || (y mod 400 =? 0)))%Z.

Definition days_in_month (y m : Z) : Z :=
  if (m =? 2)%Z then (if is_leap y then 29 else 28)%Z
  else if ((m =? 4) || (m =? 6) || (m =? 9) || (m =? 11))%Z then 30%Z
  else 31%Z.

(** [date(y, m, d)]: [None] where the constructor raises [ValueError]. *)
Definition make_date (y m d : Z) : option Date :=
  if ((1 <=? y) && (y <=? 9999) && (1 <=? m) && (m <=? 12) &&
      (1 <=? d) && (d <=? days_in_month y m))%Z
  then Some (mkDate (Z.to_nat y) (Z.to_nat m) (Z.to_nat d))
  else None.

(** The dates that [datetime.date] can hold. *)
Definition valid_date (d : Date) : bool :=
  match
    make_date (Z.of_nat (year d)) (Z.of_nat (month d)) (Z.of_nat (day d))
  with
  | Some _ => true
  | None => false
  end.

Inductive Endpoint :=
| Index
| NewReport
| EditReport (report_id : nat)
| Settings.

(** The category of the message that the route flashes. *)
Inductive Flash :=
| FlashError
| FlashSuccess.

Inductive Crash :=
| NoConfigRow
| Uncaught (e : Exception).

Inductive Reply :=
| RedirectTo (endpoint : Endpoint) (flash : Flash)
| Abort404
| Attachment (path : string) (download_name : string)
| Crashed (c : Crash).

(** The fields of the report form; [None] for a field the request does
    not carry. *)
Record ReportForm := mkReportForm {
  form_name : option string;
  form_date : option string;
  form_summary : option string;
  form_plan : option string
}.

Record Upload := mkUpload {
  upload_filename : string;
  upload_content : File
}.

Section Routes.

(** Library functions that are not written out: [str.strip] and
    [str.lower], and [int] on the strings that are not a run of at most
    4300 ASCII digits (white space, signs, underscores and the digits of
    other scripts come in there; 4300 is CPython's default limit on the
    length of a number). *)
Variable strip : string -> string.
Variable lower : string -> string.
Variable int_other : string -> option Z.

Variable format_extended :
  gmap string string -> string -> Field -> option string.
Variable BASE_DIR : string.

(** [int(x)] on a [str]; [None] where it raises [ValueError]. *)
Definition py_int (x : string) : option Z :=
  match x with
  | EmptyString => None
  | String _ _ =>
      if all_digits x && (String.length x <=? 4300)%nat
      then Some (decimal_value 0 x)
      else int_other x
  end.

(** The [try] block of [new_report] and [edit_report]:
    [y, m, d = [int(x) for x in date_str.split("-")]; date(y, m, d)],
    [None] when anything in it raises.  A missing field has no [split]. *)
Definition parse_date (date_str : option string) : option Date :=
  match date_str with
  | None => None
  | Some date_str =>
      match mapM py_int (split_char "-" date_str) with
      | Some [y; m; d] => make_date y m d
      | _ => None
      end
  end.

(** The record that both forms build from the posted fields. *)
Definition report_of_form (form : ReportForm) (d : Date) : WeeklyReport :=
  mkWeeklyReport
    (Some (strip (PyStr.or_else (form_name form) "")))
    d
    (Some (PyStr.or_else (form_summary form) ""))
    (Some (PyStr.or_else (form_plan form) "")).

(** [new_report], on POST. *)
Definition new_report (st : AppState) (form : ReportForm) : Reply * AppState :=
  match parse_date (form_date form) with
  | None => (RedirectTo NewReport FlashError, st)
  | Some d_obj =>
      let report := report_of_form form d_obj in
      (RedirectTo Index FlashSuccess,
       mkAppState (<[next_id (reports st) := report]> (reports st))
         (export_config st) (files st))
  end.

(** [new_report], on GET: the name and the date the form starts with. *)
Definition new_report_defaults (st : AppState) (today : Date)
  : string * string :=
  (get_last_name st, isoformat today).

(** [edit_report], on POST. *)
Definition edit_report (st : AppState) (report_id : nat) (form : ReportForm)
  : Reply * AppState :=
  match reports st !! report_id with
  | None => (Abort404, st)
  | Some _ =>
      match parse_date (form_date form) with
      | None => (RedirectTo (EditReport report_id) FlashError, st)
      | Some d_obj =>
          (RedirectTo Index FlashSuccess,
           mkAppState (<[report_id := report_of_form form d_obj]> (reports st))
             (export_config st) (files st))
      end
  end.

(** [edit_report], on GET: the name and the date the form starts with. *)
Definition edit_report_defaults (st : AppState) (report_id : nat)
  : option (option string * string) :=
  match reports st !! report_id with
  | None => None
  | Some report => Some (name report, isoformat (date report))
  end.

(** [delete_report] *)
Definition delete_report (st : AppState) (report_id : nat) : Reply * AppState :=
  match reports st !! report_id with
  | None => (Abort404, st)
  | Some _ =>
      (RedirectTo Index FlashSuccess,
       mkAppState (delete report_id (reports st)) (export_config st) (files st))
  end.

(** [s.endswith(suffix)] *)
Definition endswith (suffix s : string) : bool :=
  PyStr.startswith (String.rev suffix) (String.rev s).

(** [settings], on POST.  The pattern is assigned first, but committed only
    at the end; the upload is saved as it comes. *)
Definition settings (st : AppState) (filename_pattern : option string)
    (template_file : option Upload) : Reply * AppState :=
  match export_config st with
  | None => (Crashed NoConfigRow, st)
  | Some _ =>
      let filename_pattern :=
        strip (PyStr.or_else filename_pattern default_filename_pattern) in
      let keep_template :=
        (RedirectTo Settings FlashSuccess,
         mkAppState (reports st) (Some filename_pattern) (files st)) in
      match template_file with
      | Some f =>
          match upload_filename f with
          | EmptyString => keep_template
          | String _ _ =>
              if negb (endswith ".docx" (lower (upload_filename f)))
              then (RedirectTo Settings FlashError, st)
              else
                (RedirectTo Settings FlashSuccess,
                 mkAppState (reports st) (Some filename_pattern)
                   (<[get_template_path BASE_DIR := upload_content f]>
                      (files st)))
          end
      | None => keep_template
      end
  end.

(** The route [/report/<id>/export]: the lookups around [export_report]. *)
Definition export_route (st : AppState) (report_id : nat) : Reply * AppState :=
  match reports st !! report_id with
  | None => (Abort404, st)
  | Some report =>
      if negb (has_template BASE_DIR (files st))
      then (RedirectTo Settings FlashError, st)
      else
        match export_config st with
        | None => (Crashed NoConfigRow, st)
        | Some filename_pattern =>
            let '(outcome, files') :=
              export_report format_extended BASE_DIR (files st) report
                filename_pattern in
            (match outcome with
             | Return RedirectToSettings => RedirectTo Settings FlashError
             | Return (SendFile path download_name) =>
                 Attachment path download_name
             | Raise e => Crashed (Uncaught e)
             end,
             mkAppState (reports st) (export_config st) files')
        end
  end.

(** The requests that change something, and the application as a machine
    that takes them one after the other. *)
Inductive Request :=
| PostNewReport (form : ReportForm)
| PostEditReport (report_id : nat) (form : ReportForm)
| PostDeleteReport (report_id : nat)
| PostSettings (filename_pattern : option string) (template_file : option Upload)
| GetExport (report_id : nat).

Definition handle (st : AppState) (request : Request) : Reply * AppState :=
  match request with
  | PostNewReport form => new_report st form
  | PostEditReport report_id form => edit_report st report_id form
  | PostDeleteReport report_id => delete_report st report_id
  | PostSettings filename_pattern template_file =>
      settings st filename_pattern template_file
  | GetExport report_id => export_route st report_id
  end.

Definition serve (st : AppState) (requests : list Request) : AppState :=
  foldl (fun st request => (handle st request).2) st requests.

End Routes.

(** What the application starts from: no report, the configuration row
    that [init_db] adds, an empty upload directory. *)
Definition initial_state : AppState := init_db (mkAppState ∅ None ∅).

(** Every stored report has a date that [datetime.date] can hold, and a
    name, a summary and a plan that are strings, not NULL. *)
Definition well_formed_report (r : WeeklyReport) : Prop :=
  valid_date (date r) = true /\
  is_Some (name r) /\ is_Some (summary r) /\ is_Some (plan r).

Definition well_formed_state (st : AppState) : Prop :=
  (forall i r, reports st !! i = Some r -> well_formed_report r) /\
  is_Some (export_config st).

(** Stand-ins for the library functions, for running examples on
    arguments where they do nothing. *)
Definition no_strip (s : string) : string := s.
Definition no_int (_ : string) : option Z := None.

(** * The definitions at work *)

Example replace_once :
  PyStr.replace "ab" "X" "cabab-aab" = "cXX-aX".
Proof. reflexivity. Qed.

Example replace_leftmost :
  PyStr.replace "aa" "b" "aaa" = "ba".
Proof. reflexivity. Qed.

Example replace_empty_pattern :
  PyStr.replace "" "-" "abc" = "-a-b-c-".
Proof. reflexivity. Qed.

Example replace_split_runs :
  paragraph_text
    (replace_in_paragraph [("NAME", "张三")]
       (mkParagraph 7 [mkRun "姓名：{{NA" 1; mkRun "ME}}" 2]))
  = "姓名：张三".
Proof. reflexivity. Qed.

(** The scenario of the spec: one paragraph, two placeholders. *)
Example render_name_and_date :
  paragraph_text
    <$> doc_store
          (render_document (export_context sample_report)
             (one_paragraph "姓名：{{NAME}}　日期：{{DATE}}")) !! 0
  = Some "姓名：张三　日期：2024-05-01".
Proof. reflexivity. Qed.

(** A placeholder cut by a paragraph boundary is not seen. *)
Example placeholder_across_paragraphs :
  doc_store
    (render_document (export_context sample_report)
       (mkDocument [mkParagraph 0 [mkRun "{{NA" 0]; mkParagraph 0 [mkRun "ME}}" 0]]
          [0; 1] [] []))
  = [mkParagraph 0 [mkRun "{{NA" 0]; mkParagraph 0 [mkRun "ME}}" 0]].
Proof. reflexivity. Qed.

(** Every region of the sample is substituted; the paragraph without a
    placeholder and the empty one keep their runs. *)
Example render_sample_document :
  doc_store (render_document (export_context sample_report) sample_document)
  = [ mkParagraph 1 [plain_run "姓名：张三　日期：2024-05-01"];
      mkParagraph 0 [mkRun "本周" 3; mkRun "总结" 4];
      mkParagraph 0 [plain_run "完成导出"];
      mkParagraph 2 [];
      mkParagraph 0 [plain_run "联调"] ].
Proof. reflexivity. Qed.

(** The paragraph of the merged cell is visited twice: the summary's
    [{{NAME}}], left over by the first visit, is replaced by the second. *)
Example merged_cell_visited_twice :
  times_visited 2 (visits sample_document) = 2 /\
  paragraph_text
    <$> doc_store (render_document (export_context quoting_report)
                     sample_document) !! 2
  = Some "见联调".
Proof. by vm_compute. Qed.

Example isoformat_example : isoformat (mkDate 2024 5 1) = "2024-05-01".
Proof. reflexivity. Qed.

Example format_default_pattern :
  str_format no_extended default_filename_pattern
    {[ "NAME" := "张三"; "DATE" := "2024-05-01" ]}
  = Return "2024-05-01_张三_周报.docx".
Proof. vm_compute. reflexivity. Qed.

Example format_escape :
  str_format no_extended "{{NAME}}" {[ "NAME" := "x"; "DATE" := "d" ]}
  = Return "{NAME}".
Proof. vm_compute. reflexivity. Qed.

Example format_positional :
  str_format no_extended "{}{0}" {[ "NAME" := "x"; "DATE" := "d" ]}
  = Raise FormatError.
Proof. vm_compute. reflexivity. Qed.

Example format_single_brace :
  str_format no_extended "a}b" {[ "NAME" := "x"; "DATE" := "d" ]}
  = Raise FormatError.
Proof. vm_compute. reflexivity. Qed.

Example scan_conversion_and_spec :
  scan InText "{NAME!r:>{DATE}}"
  = ([Replacement (mkField "NAME" (Some "r"%char) ">{DATE}")], false).
Proof. reflexivity. Qed.

Example format_unknown :
  str_format no_extended "a{FOO}" {[ "NAME" := "x"; "DATE" := "d" ]}
  = Raise FormatError.
Proof. vm_compute. reflexivity. Qed.

Example split_date_text : split_char "-" "2024-05-01" = ["2024"; "05"; "01"].
Proof. reflexivity. Qed.

Example split_keeps_empty_parts : split_char "-" "-5-" = [""; "5"; ""].
Proof. reflexivity. Qed.

Example parse_short_parts :
  parse_date no_int (Some "2024-5-1") = Some (mkDate 2024 5 1).
Proof. reflexivity. Qed.

Example parse_no_such_day : parse_date no_int (Some "2023-02-29") = None.
Proof. reflexivity. Qed.

Example parse_missing_field : parse_date no_int None = None.
Proof. reflexivity. Qed.

Example endswith_docx :
  endswith ".docx" "模板.docx" = true /\ endswith ".docx" "docx" = false.
Proof. by vm_compute. Qed.

(** Two reports are created, the first is deleted: the next form starts
    with the name of the second. *)
Example last_name_after_requests :
  get_last_name
    (serve no_strip no_strip no_int no_extended "/srv/app" initial_state
       [ PostNewReport (mkReportForm (Some "张三") (Some "2024-05-01") None None);
         PostNewReport (mkReportForm (Some "李四") (Some "2024-05-08") None None);
         PostDeleteReport 1 ])
  = "李四".
Proof. by vm_compute. Qed.

(** Without a template the export sends the user to the settings. *)
Example export_without_template :
  (export_route no_extended "/srv/app"
     (mkAppState {[ 1 := sample_report ]} (Some default_filename_pattern) ∅)
     1).1
  = RedirectTo Settings FlashError.
Proof. by vm_compute. Qed.

(** * Facts about strings *)

Module StrFacts.

Lemma app_nil_l (s : string) : "" +:+ s = s.
Proof. done. Qed.

Lemma app_cons (c : ascii) (a b : string) :
  String c a +:+ b = String c (a +:+ b).
Proof. done. Qed.

Lemma app_nil_r (s : string) : s +:+ "" = s.
Proof.
  induction s as [|c s IH]; [done | by rewrite app_cons, IH].
Qed.

Lemma app_assoc (a b c : string) : (a +:+ b) +:+ c = a +:+ b +:+ c.
Proof.
  induction a as [|x a IH]; [done | by rewrite !app_cons, IH].
Qed.

Lemma length_app (a b : string) :
  String.length (a +:+ b) = String.length a + String.length b.
Proof.
  induction a as [|x a IH]; [done | rewrite app_cons; simpl; by rewrite IH].
Qed.

Lemma prefix_nil (s : string) : String.prefix "" s = true.
Proof. by destruct s. Qed.

Lemma prefix_cons (c d : ascii) (a s : string) :
  String.prefix (String c a) (String d s)
  = bool_decide (c = d) && String.prefix a s.
Proof.
  simpl. destruct (ascii_dec c d) as [->|Hne].
  - by rewrite bool_decide_eq_true_2.
  - by rewrite bool_decide_eq_false_2.
Qed.

Lemma prefix_cons_nil (c : ascii) (a : string) :
  String.prefix (String c a) "" = false.
Proof. done. Qed.

(** [old] starts [s] exactly when [s] is [old] followed by something. *)
Lemma prefix_true (old s : string) :
  String.prefix old s = true <-> exists r, s = old +:+ r.
Proof.
  revert s. induction old as [|c old IH]; intros s.
  - rewrite prefix_nil. split; [by exists s | done].
  - destruct s as [|d s].
    + rewrite prefix_cons_nil. split; [done | by intros [r Hr]].
    + rewrite prefix_cons, andb_true_iff, bool_decide_eq_true, IH.
      split.
      * intros [-> [r ->]]. by exists r.
      * intros [r Hr]. rewrite app_cons in Hr. injection Hr as -> ->. eauto.
Qed.

Lemma prefix_app (old r : string) : String.prefix old (old +:+ r) = true.
Proof. apply prefix_true. by exists r. Qed.

(** A string that starts [a +:+ r] either starts [a] already, or is [a]
    followed by a non-empty start of [r]. *)
Lemma prefix_app_cases (old a r : string) :
  String.prefix old (a +:+ r) = true ->
  String.prefix old a = true \/
  exists v, v <> "" /\ old = a +:+ v /\ String.prefix v r = true.
Proof.
  revert old. induction a as [|c a IH]; intros old H.
  - destruct old as [|d old]; [by left | right].
    exists (String d old). done.
  - destruct old as [|d old]; [by left |].
    rewrite app_cons, prefix_cons in H. apply andb_true_iff in H as [Hc H].
    apply bool_decide_eq_true in Hc as ->.
    destruct (IH _ H) as [Hp | (v & Hv & -> & Hr)].
    + left. rewrite prefix_cons, Hp. by rewrite bool_decide_eq_true_2.
    + right. exists v. by rewrite app_cons.
Qed.

Lemma prefix_app_l (old a r : string) :
  String.prefix old a = true -> String.prefix old (a +:+ r) = true.
Proof.
  intros [q ->]%prefix_true. rewrite app_assoc. apply prefix_app.
Qed.

(** A start of [m +:+ b] and [m] are comparable. *)
Lemma prefix_app_compatible (v m b : string) :
  String.prefix v (m +:+ b) = true -> compatible v m = true.
Proof.
  intros H. unfold compatible, PyStr.startswith.
  destruct (prefix_app_cases _ _ _ H) as [-> | (w & _ & -> & _)]; [done |].
  by rewrite prefix_app, orb_true_r.
Qed.

Lemma prefix_length (old s : string) :
  String.prefix old s = true -> String.length old <= String.length s.
Proof. intros [r ->]%prefix_true. rewrite length_app. lia. Qed.

Lemma tails_app_r (a v : string) : v <> "" -> v ∈ tails (a +:+ v).
Proof.
  intros Hv. induction a as [|c a IH].
  - destruct v; [done | left].
  - rewrite app_cons. by right.
Qed.

End StrFacts.

(** * Facts about [replace] *)

Module ReplaceFacts.
Import StrFacts PyStr.

Lemma contains_cons (old : string) (c : ascii) (s : string) :
  contains old (String c s) = startswith old (String c s) || contains old s.
Proof. done. Qed.

(** Nothing to replace: the scan copies its input. *)
Lemma replace_scan_absent (old new s : string) :
  contains old s = false -> replace_scan 0 old new s = s.
Proof.
  induction s as [|c s IH]; [done |].
  rewrite contains_cons. intros [Hhd Htl]%orb_false_iff.
  cbn [replace_scan]. rewrite Hhd. by rewrite IH.
Qed.

(** The characters of a match are passed over. *)
Lemma replace_scan_skip (old new m s : string) :
  replace_scan (String.length m) old new (m +:+ s) = replace_scan 0 old new s.
Proof. induction m as [|c m IH]; [done | by rewrite app_cons]. Qed.

(** A match at the head is replaced. *)
Lemma replace_scan_here (old new s : string) :
  old <> "" ->
  replace_scan 0 old new (old +:+ s) = new +:+ replace_scan 0 old new s.
Proof.
  destruct old as [|c old]; [done | intros _].
  rewrite app_cons. cbn [replace_scan].
  replace (startswith (String c old) (String c (old +:+ s))) with true
    by (symmetry; apply (prefix_app (String c old))).
  cbn [String.length]. rewrite Nat.sub_1_r, Nat.pred_succ.
  by rewrite replace_scan_skip.
Qed.

Lemma no_overrun_spec (old mid a v : string) :
  no_overrun old mid = true -> a <> "" -> v <> "" -> old = a +:+ v ->
  compatible v mid = false.
Proof.
  intros H Ha Hv ->. destruct a as [|c a]; [done |].
  rewrite app_cons in H. cbn [no_overrun] in H.
  rewrite forallb_forall in H.
  apply negb_true_iff, H, list_elem_of_In. by apply tails_app_r.
Qed.

(** Before [mid], the scan goes as if [mid] and what follows were not
    there. *)
Lemma startswith_before (old mid a b : string) :
  no_overrun old mid = true -> a <> "" ->
  startswith old (a +:+ mid +:+ b) = startswith old a.
Proof.
  intros H Ha. unfold startswith.
  destruct (String.prefix old a) eqn:Hp; [by apply prefix_app_l |].
  destruct (String.prefix old (a +:+ mid +:+ b)) eqn:Hq; [exfalso | done].
  apply prefix_app_cases in Hq as [Hq | (v & Hv & Hold & Hq)]; [congruence |].
  apply prefix_app_compatible in Hq.
  by rewrite (no_overrun_spec _ _ _ _ H Ha Hv Hold) in Hq.
Qed.

Lemma replace_scan_before (old new mid b a : string) (k : nat) :
  no_overrun old mid = true -> k <= String.length a ->
  replace_scan k old new (a +:+ mid +:+ b)
  = replace_scan k old new a +:+ replace_scan 0 old new (mid +:+ b).
Proof.
  intros H. revert k. induction a as [|c a IH]; intros k Hk.
  - cbn [String.length] in Hk. by replace k with 0 by lia.
  - cbn [String.length] in Hk. rewrite app_cons.
    destruct k as [|k]; cbn [replace_scan].
    + rewrite <- app_cons, startswith_before by done.
      destruct (startswith old (String c a)) eqn:Hp.
      * apply prefix_length in Hp. cbn [String.length] in Hp.
        rewrite IH by lia. by rewrite app_assoc.
      * by rewrite IH, app_cons by lia.
    + apply IH. lia.
Qed.

Lemma replace_scan_within (old new b m : string) :
  forallb (fun m' => negb (compatible old m')) (tails m) = true ->
  replace_scan 0 old new (m +:+ b) = m +:+ replace_scan 0 old new b.
Proof.
  induction m as [|c m IH]; [done |].
  cbn [tails forallb]. intros [Hhd Htl]%andb_true_iff.
  rewrite app_cons. cbn [replace_scan].
  destruct (startswith old (String c (m +:+ b))) eqn:Hp.
  - rewrite <- app_cons in Hp. apply prefix_app_compatible in Hp.
    by rewrite Hp in Hhd.
  - by rewrite IH.
Qed.

(** A string apart from [old] goes through the scan untouched, and the
    text on its two sides is scanned independently. *)
Lemma replace_scan_apart (old new mid a b : string) :
  apart old mid = true ->
  replace_scan 0 old new (a +:+ mid +:+ b)
  = replace_scan 0 old new a +:+ mid +:+ replace_scan 0 old new b.
Proof.
  intros [H1 H2]%andb_true_iff.
  rewrite replace_scan_before by (done || lia).
  by rewrite replace_scan_within.
Qed.

(** An occurrence of [old] that no other occurrence can run into is
    replaced, wherever it stands. *)
Lemma replace_scan_occurrence (old new a b : string) :
  old <> "" -> no_overrun old old = true ->
  replace_scan 0 old new (a +:+ old +:+ b)
  = replace_scan 0 old new a +:+ new +:+ replace_scan 0 old new b.
Proof.
  intros Hne H.
  rewrite replace_scan_before by (done || lia).
  by rewrite replace_scan_here.
Qed.

End ReplaceFacts.

(** * The loop over the context *)

Module SubstituteFacts.
Import StrFacts PyStr ReplaceFacts.

Lemma placeholder_unfold (key : string) :
  placeholder key = String "{" (String "{" (key +:+ "}}")).
Proof. done. Qed.

Lemma placeholder_nonempty (key : string) : placeholder key <> "".
Proof. by rewrite placeholder_unfold. Qed.

(** The [in] test before [replace] changes nothing. *)
Lemma replace_key_scan (t : string) (kv : string * string) :
  replace_key t kv = replace_scan 0 (placeholder kv.1) kv.2 t.
Proof.
  unfold replace_key.
  destruct (contains (placeholder kv.1) t) eqn:Hc.
  - by rewrite placeholder_unfold.
  - by rewrite replace_scan_absent.
Qed.

Lemma substitute_app (c1 c2 : Context) (t : string) :
  substitute (c1 ++ c2) t = substitute c2 (substitute c1 t).
Proof. apply foldl_app. Qed.

Lemma substitute_cons (kv : string * string) (c : Context) (t : string) :
  substitute (kv :: c) t = substitute c (replace_key t kv).
Proof. done. Qed.

Lemma substitute_empty (context : Context) : substitute context "" = "".
Proof.
  induction context as [|kv c IH]; [done |].
  by rewrite substitute_cons, replace_key_scan.
Qed.

Lemma substitute_absent (context : Context) (t : string) :
  Forall (fun kv => contains (placeholder kv.1) t = false) context ->
  substitute context t = t.
Proof.
  induction 1 as [|kv c Hkv _ IH]; [done |].
  rewrite substitute_cons. unfold replace_key. by rewrite Hkv.
Qed.

(** Text that no placeholder of the context can overlap survives the
    loop, and splits it in two. *)
Lemma substitute_apart (context : Context) (mid a b : string) :
  Forall (fun kv => apart (placeholder kv.1) mid = true) context ->
  substitute context (a +:+ mid +:+ b)
  = substitute context a +:+ mid +:+ substitute context b.
Proof.
  intros H. revert a b. induction H as [|kv c Hkv _ IH]; intros a b; [done |].
  rewrite !substitute_cons, !replace_key_scan.
  by rewrite replace_scan_apart, IH.
Qed.

(** The turn of [key] replaces an occurrence of its placeholder that
    the earlier turns could not touch; the later turns then run over the
    result. *)
Lemma substitute_occurrence
    (before after : Context) (key value pre post : string) :
  Forall (fun kv => apart (placeholder kv.1) (placeholder key) = true) before ->
  no_overrun (placeholder key) (placeholder key) = true ->
  substitute (before ++ (key, value) :: after)
    (pre +:+ placeholder key +:+ post)
  = substitute after
      (substitute (before ++ [(key, value)]) pre +:+ value +:+
       substitute (before ++ [(key, value)]) post).
Proof.
  intros Hb Hk.
  rewrite !substitute_app, !substitute_cons, substitute_apart by done.
  rewrite !replace_key_scan. cbn [fst snd].
  rewrite replace_scan_occurrence by (done || apply placeholder_nonempty).
  done.
Qed.

End SubstituteFacts.

(** * One paragraph *)

Module ParagraphFacts.
Import StrFacts SubstituteFacts.

Lemma paragraph_text_set (p : Paragraph) (t : string) :
  paragraph_text (set_paragraph_text p t) = t.
Proof. apply app_nil_r. Qed.

Lemma set_paragraph_text_twice (p : Paragraph) (t u : string) :
  set_paragraph_text (set_paragraph_text p t) u = set_paragraph_text p u.
Proof. done. Qed.

(** What [replace_in_paragraph] does, by cases: it returns early, or
    finds the text unchanged, or assigns the new text. *)
Lemma replace_in_paragraph_cases (context : Context) (p : Paragraph) :
  (replace_in_paragraph context p = p /\
   (paragraph_text p = "" \/
    substitute context (paragraph_text p) = paragraph_text p)) \/
  (replace_in_paragraph context p
     = set_paragraph_text p (substitute context (paragraph_text p)) /\
   paragraph_text p <> "" /\
   substitute context (paragraph_text p) <> paragraph_text p).
Proof.
  unfold replace_in_paragraph.
  destruct (paragraph_text p) as [|c t] eqn:Ht; [left; auto |].
  case_decide as Hs.
  - left. auto.
  - right. done.
Qed.

Lemma replace_in_paragraph_text (context : Context) (p : Paragraph) :
  paragraph_text (replace_in_paragraph context p)
  = substitute context (paragraph_text p).
Proof.
  destruct (replace_in_paragraph_cases context p)
    as [[-> [Ht | Ht]] | [-> _]].
  - by rewrite Ht, substitute_empty.
  - done.
  - apply paragraph_text_set.
Qed.

Lemma replace_in_paragraph_fixed (context : Context) (p : Paragraph) :
  paragraph_text p = "" \/
  substitute context (paragraph_text p) = paragraph_text p ->
  replace_in_paragraph context p = p.
Proof.
  intros H.
  destruct (replace_in_paragraph_cases context p)
    as [[-> _] | (_ & Hne & Hs)]; [done |].
  by destruct H.
Qed.

Lemma iter_fixed (context : Context) (p : Paragraph) (n : nat) :
  replace_in_paragraph context p = p ->
  Nat.iter n (replace_in_paragraph context) p = p.
Proof.
  intros H. induction n as [|n IH]; [done |].
  by rewrite Nat.iter_succ, IH.
Qed.

Lemma iter_text (context : Context) (p : Paragraph) (n : nat) :
  paragraph_text (Nat.iter n (replace_in_paragraph context) p)
  = Nat.iter n (substitute context) (paragraph_text p).
Proof.
  induction n as [|n IH]; [done |].
  by rewrite !Nat.iter_succ, replace_in_paragraph_text, IH.
Qed.

(** However often a paragraph is visited, it is either as it was or one
    plain run. *)
Lemma iter_shape (context : Context) (p : Paragraph) (n : nat) :
  Nat.iter n (replace_in_paragraph context) p = p \/
  exists t, Nat.iter n (replace_in_paragraph context) p
            = set_paragraph_text p t.
Proof.
  induction n as [|n IH]; [by left |].
  rewrite Nat.iter_succ.
  set (q := Nat.iter n (replace_in_paragraph context) p) in *.
  destruct (replace_in_paragraph_cases context q) as [[-> _] | [-> _]];
    [done |].
  right. destruct IH as [-> | [t ->]]; eauto.
Qed.

End ParagraphFacts.

(** * The walk over the store *)

Module WalkFacts.
Import ParagraphFacts.

Section Walk.
Variable context : Context.

Lemma foldl_visit_bind {A} (g : A -> list nat) (l : list A)
    (store : list Paragraph) :
  foldl (fun store x => render_paragraphs context store (g x)) store l
  = render_paragraphs context store (l ≫= g).
Proof.
  revert store. induction l as [|x l IH]; intros store; [done |].
  rewrite bind_cons. unfold render_paragraphs in *.
  rewrite foldl_app. cbn [foldl]. apply IH.
Qed.

Lemma render_tables_visits (store : list Paragraph) (ts : list Table) :
  render_tables context store ts
  = render_paragraphs context store (table_visits ts).
Proof.
  unfold render_tables, table_visits.
  rewrite <- foldl_visit_bind. revert store.
  induction ts as [|t ts IH]; intros store; [done |].
  cbn [foldl]. rewrite <- IH. f_equal.
  rewrite <- foldl_visit_bind. generalize (table_rows t). clear.
  intros rs. revert store.
  induction rs as [|r rs IH]; intros store; [done |].
  cbn [foldl]. rewrite <- IH. f_equal.
  by rewrite foldl_visit_bind.
Qed.

Lemma render_header_footer_visits (store : list Paragraph)
    (hf : HeaderFooter) :
  render_header_footer context store hf
  = render_paragraphs context store (header_footer_visits hf).
Proof.
  unfold render_header_footer, header_footer_visits.
  rewrite render_tables_visits. unfold render_paragraphs.
  by rewrite foldl_app.
Qed.

Lemma render_sections_visits (store : list Paragraph) (ss : list Section) :
  render_sections context store ss
  = render_paragraphs context store (section_visits ss).
Proof.
  unfold render_sections, section_visits.
  rewrite <- foldl_visit_bind. revert store.
  induction ss as [|s ss IH]; intros store; [done |].
  cbn [foldl]. rewrite <- IH. f_equal.
  rewrite !render_header_footer_visits. unfold render_paragraphs.
  by rewrite foldl_app.
Qed.

(** The nested loops amount to one pass over [visits]. *)
Lemma render_document_store (doc : Document) :
  doc_store (render_document context doc)
  = foldl (visit context) (doc_store doc) (visits doc).
Proof.
  unfold render_document, visits. cbn [doc_store].
  rewrite render_sections_visits, render_tables_visits.
  unfold render_paragraphs. by rewrite !foldl_app.
Qed.

Lemma lookup_foldl_visit (l : list nat) (store : list Paragraph) (i : nat) :
  foldl (visit context) store l !! i
  = Nat.iter (times_visited i l) (replace_in_paragraph context)
      <$> store !! i.
Proof.
  revert store. induction l as [|j l IH]; intros store.
  - cbn. by destruct (store !! i).
  - cbn [foldl times_visited]. rewrite IH. unfold visit.
    case_decide as Hj.
    + subst j. rewrite list_lookup_alter_eq.
      destruct (store !! i) as [p|]; [|done].
      change (1 + ?n) with (S n). cbn [fmap option_fmap option_map].
      f_equal. symmetry. apply Nat.iter_succ_r.
    + by rewrite list_lookup_alter_ne.
Qed.

(** The paragraph at [i] after rendering: [replace_in_paragraph]
    applied once per visit. *)
Lemma lookup_render_document (doc : Document) (i : nat) :
  doc_store (render_document context doc) !! i
  = Nat.iter (times_visited i (visits doc)) (replace_in_paragraph context)
      <$> doc_store doc !! i.
Proof. rewrite render_document_store. apply lookup_foldl_visit. Qed.

Lemma times_visited_pos (i : nat) (l : list nat) :
  i ∈ l -> 0 < times_visited i l.
Proof.
  intros H. induction l as [|j l IH]; [by apply elem_of_nil in H |].
  cbn [times_visited]. case_decide as Hj; [lia |].
  apply elem_of_cons in H as [-> | H]; [done |].
  specialize (IH H). lia.
Qed.

End Walk.

End WalkFacts.

(** * The placeholders of the four keys *)

Module KeyFacts.
Import SubstituteFacts.

Lemma export_context_keys (report : WeeklyReport) :
  (export_context report).*1 = recognized_keys.
Proof. done. Qed.

(** The placeholders of two different recognized keys cannot overlap,
    and none can overlap a second occurrence of itself. *)
Lemma recognized_keys_apart (context before after : Context)
    (key value : string) :
  context.*1 = recognized_keys ->
  context = before ++ (key, value) :: after ->
  Forall (fun kv => apart (placeholder kv.1) (placeholder key) = true) before
  /\ no_overrun (placeholder key) (placeholder key) = true.
Proof.
  intros Hkeys ->.
  destruct before as [|[k1 v1] [|[k2 v2] [|[k3 v3] [|[k4 v4] before]]]];
    cbn in Hkeys.
  - injection Hkeys as -> _. split; [constructor | by vm_compute].
  - injection Hkeys as -> -> _.
    split; [repeat constructor | ]; by vm_compute.
  - injection Hkeys as -> -> -> _.
    split; [repeat constructor | ]; by vm_compute.
  - injection Hkeys as -> -> -> -> _.
    split; [repeat constructor | ]; by vm_compute.
  - by destruct before.
Qed.

Lemma times_visited_cases (i : nat) (l : list nat) :
  times_visited i l = 0 \/ i ∈ l.
Proof.
  induction l as [|j l IH]; [by left |].
  cbn [times_visited]. case_decide as Hj.
  - subst j. right. by left.
  - destruct IH as [-> | Hi]; [by left | right; by right].
Qed.

End KeyFacts.

(** * Facts about [str_format] *)

Module FormatFacts.
Import StrFacts.

Section WithExtended.
Variable format_extended :
  gmap string string -> string -> Field -> option string.
Variable kwargs : gmap string string.

Local Abbreviation fmt s := (str_format format_extended s kwargs).

Lemma fmt_literal (c : ascii) (s : string) :
  Ascii.eqb c "{" = false -> Ascii.eqb c "}" = false ->
  fmt (String c s) = then_rest (String c "") (fmt s).
Proof.
  intros H1 H2. unfold str_format. cbn [scan]. rewrite H1, H2.
  destruct (scan InText s) as [ms err]. cbn [emit fst snd vformat].
  by destruct (vformat format_extended kwargs ms), err.
Qed.

Lemma fmt_open (s : string) : fmt ("{{" +:+ s) = then_rest "{" (fmt s).
Proof.
  unfold str_format. rewrite !app_cons, app_nil_l. cbn [scan Ascii.eqb].
  cbn. destruct (scan InText s) as [ms err]. cbn [emit fst snd vformat].
  by destruct (vformat format_extended kwargs ms), err.
Qed.

Lemma fmt_close (s : string) : fmt ("}}" +:+ s) = then_rest "}" (fmt s).
Proof.
  unfold str_format. rewrite !app_cons, app_nil_l. cbn [scan Ascii.eqb].
  cbn. destruct (scan InText s) as [ms err]. cbn [emit fst snd vformat].
  by destruct (vformat format_extended kwargs ms), err.
Qed.

Lemma fmt_name (s v : string) :
  kwargs !! "NAME" = Some v ->
  fmt ("{NAME}" +:+ s) = then_rest v (fmt s).
Proof.
  intros Hv. unfold str_format. rewrite !app_cons, app_nil_l.
  cbn -[vformat]. destruct (scan InText s) as [ms err].
  cbn [emit fst snd vformat]. unfold format_field.
  change (snoc (snoc (snoc (snoc "" "N") "A") "M") "E") with "NAME".
  change (arg_name (field_name (mkField "NAME" None ""))) with "NAME".
  change (plain (mkField "NAME" None "")) with true.
  cbv iota. rewrite Hv.
  by destruct (vformat format_extended kwargs ms), err.
Qed.

Lemma fmt_date (s v : string) :
  kwargs !! "DATE" = Some v ->
  fmt ("{DATE}" +:+ s) = then_rest v (fmt s).
Proof.
  intros Hv. unfold str_format. rewrite !app_cons, app_nil_l.
  cbn -[vformat]. destruct (scan InText s) as [ms err].
  cbn [emit fst snd vformat]. unfold format_field.
  change (snoc (snoc (snoc (snoc "" "D") "A") "T") "E") with "DATE".
  change (arg_name (field_name (mkField "DATE" None ""))) with "DATE".
  change (plain (mkField "DATE" None "")) with true.
  cbv iota. rewrite Hv.
  by destruct (vformat format_extended kwargs ms), err.
Qed.

Lemma fmt_text (t s : string) :
  brace_free t = true -> fmt (t +:+ s) = then_rest t (fmt s).
Proof.
  induction t as [|c t IH]; cbn [brace_free].
  - intros _. rewrite app_nil_l. by destruct (fmt s).
  - intros [[H1 H2]%andb_true_iff Ht]%andb_true_iff.
    apply negb_true_iff in H1, H2.
    rewrite app_cons, fmt_literal, IH by done.
    by destruct (fmt s).
Qed.

(** A pattern made of pieces formats piece by piece: text as it
    stands, a doubled brace as one brace, a field as its value. *)
Lemma fmt_pieces (pieces : list Piece) (name_value date_value : string) :
  kwargs !! "NAME" = Some name_value ->
  kwargs !! "DATE" = Some date_value ->
  forallb well_formed pieces = true ->
  fmt (pattern_of pieces) = Return (output_of name_value date_value pieces).
Proof.
  intros Hn Hd. induction pieces as [|pc pieces IH];
    cbn [forallb pattern_of output_of foldr]; [done |].
  intros [Hpc Hrest]%andb_true_iff. specialize (IH Hrest).
  fold (pattern_of pieces) (output_of name_value date_value pieces).
  destruct pc as [t| | | |]; cbn [piece_pattern piece_output well_formed] in *.
  - by rewrite fmt_text, IH.
  - by rewrite fmt_open, IH.
  - by rewrite fmt_close, IH.
  - by rewrite (fmt_name _ name_value), IH.
  - by rewrite (fmt_date _ date_value), IH.
Qed.

(** A closing brace that is not doubled is a syntax error. *)
Lemma fmt_single_close (rest : string) :
  PyStr.startswith "}" rest = false ->
  fmt ("}" +:+ rest) = Raise FormatError.
Proof.
  intros H. unfold str_format. rewrite app_cons, app_nil_l. cbn [scan].
  change (Ascii.eqb "}" "{") with false. change (Ascii.eqb "}" "}") with true.
  cbv iota. destruct rest as [|c rest]; [done |].
  unfold PyStr.startswith in H. rewrite prefix_cons, prefix_nil in H.
  rewrite andb_true_r in H. apply bool_decide_eq_false in H.
  destruct (Ascii.eqb_spec c "}") as [-> |]; [done | done].
Qed.

(** A field whose argument was not passed makes the whole call raise,
    wherever in the pattern it stands. *)
Lemma vformat_unknown (ms : list Markup) (f : Field) :
  Replacement f ∈ ms ->
  kwargs !! arg_name (field_name f) = None ->
  exists e, vformat format_extended kwargs ms = Raise e.
Proof.
  intros Hin Hf. induction ms as [|m ms IH]; [by apply elem_of_nil in Hin |].
  apply elem_of_cons in Hin as [<- | Hin].
  - cbn [vformat]. unfold format_field. rewrite Hf. eauto.
  - destruct (IH Hin) as [e He]. destruct m as [c | g]; cbn [vformat].
    + rewrite He. eauto.
    + destruct (format_field format_extended kwargs g); [| eauto].
      rewrite He. eauto.
Qed.

Lemma format_raises_format_error (pattern : string) (e : Exception) :
  fmt pattern = Raise e -> e = FormatError.
Proof.
  unfold str_format. destruct (scan InText pattern) as [ms err].
  assert (forall e, vformat format_extended kwargs ms = Raise e ->
                    e = FormatError) as Hv.
  { clear. induction ms as [|[c | g] ms IH]; intros e; cbn [vformat].
    - done.
    - destruct (vformat format_extended kwargs ms); [done |].
      intros [= <-]. by apply IH.
    - unfold format_field.
      destruct (kwargs !! arg_name (field_name g)); [| by intros [= <-]].
      destruct (plain g).
      + destruct (vformat format_extended kwargs ms); [done |].
        intros [= <-]. by apply IH.
      + destruct (format_extended kwargs s g); [| by intros [= <-]].
        destruct (vformat format_extended kwargs ms); [done |].
        intros [= <-]. by apply IH. }
  destruct (vformat format_extended kwargs ms) as [s | e'] eqn:Hms.
  - destruct err; [by intros [= <-] | done].
  - intros [= <-]. by apply Hv.
Qed.

End WithExtended.

Lemma filename_kwargs_name (report : WeeklyReport) :
  filename_kwargs report !! "NAME" = Some (safe_name report).
Proof. unfold filename_kwargs. by simplify_map_eq. Qed.

Lemma filename_kwargs_date (report : WeeklyReport) :
  filename_kwargs report !! "DATE" = Some (isoformat (date report)).
Proof. unfold filename_kwargs. by simplify_map_eq. Qed.

Lemma filename_kwargs_other (report : WeeklyReport) (key : string) :
  key <> "NAME" -> key <> "DATE" -> filename_kwargs report !! key = None.
Proof. intros H1 H2. unfold filename_kwargs. by simplify_map_eq. Qed.

End FormatFacts.

(** * The claims *)

(** C1.  Take a paragraph that the walk reaches, in any traversed region,
    and an occurrence of a recognized key's placeholder in its concatenated
    text, [pre ++ "{{KEY}}" ++ post], however that text is cut into runs.
    Rendering succeeds, and in the document it writes the occurrence is
    gone: the turn of [KEY] put the context's value for [KEY] in its place,
    between [pre] and [post] as the turns up to that one leave them.  The
    turns of the later keys then ran over the result, and so did any
    further visit of the same paragraph. *)
Theorem intact_placeholder_is_replaced
    (fs : gmap string File) (template_path output_path : string)
    (context before after : Context) (key value : string)
    (doc : Document) (i : nat) (p : Paragraph) (pre post : string) :
  context.*1 = recognized_keys ->
  context = before ++ (key, value) :: after ->
  fs !! template_path = Some (Package doc) ->
  i ∈ visits doc ->
  doc_store doc !! i = Some p ->
  paragraph_text p = pre +:+ placeholder key +:+ post ->
  exists doc' p',
    render_docx_template fs template_path context output_path
      = (Return tt, <[output_path := Package doc']> fs) /\
    doc_store doc' !! i = Some p' /\
    paragraph_text p'
    = Nat.iter (times_visited i (visits doc) - 1) (substitute context)
        (substitute after
           (substitute (before ++ [(key, value)]) pre +:+ value +:+
            substitute (before ++ [(key, value)]) post)).
Proof.
  intros Hkeys Hctx Hfs Hi Hp Htext.
  destruct (KeyFacts.recognized_keys_apart _ _ _ _ _ Hkeys Hctx) as [Hb Hk].
  exists (render_document context doc).
  exists (Nat.iter (times_visited i (visits doc))
            (replace_in_paragraph context) p).
  split; [| split].
  - unfold render_docx_template. by rewrite Hfs.
  - by rewrite WalkFacts.lookup_render_document, Hp.
  - rewrite ParagraphFacts.iter_text, Htext.
    pose proof (WalkFacts.times_visited_pos _ _ Hi) as Hpos.
    destruct (times_visited i (visits doc)) as [|n]; [lia |].
    rewrite Nat.iter_succ_r. cbn [Nat.sub]. rewrite Nat.sub_0_r.
    f_equal. rewrite Hctx.
    by apply SubstituteFacts.substitute_occurrence.
Qed.

(** The body paragraph of the sample, whose NAME placeholder is cut by a
    run boundary. *)
Lemma intact_placeholder_is_replaced_witness :
  exists doc' p',
    render_docx_template sample_files
      "/srv/app/data/weekly_report_template.docx"
      (export_context sample_report) "/srv/app/data/out.docx"
    = (Return tt, <["/srv/app/data/out.docx" := Package doc']> sample_files) /\
    doc_store doc' !! 0 = Some p' /\
    paragraph_text p' = "姓名：张三　日期：2024-05-01".
Proof.
  exact (intact_placeholder_is_replaced sample_files
    "/srv/app/data/weekly_report_template.docx" "/srv/app/data/out.docx"
    (export_context sample_report) [] (tail (export_context sample_report))
    "NAME" "张三" sample_document 0
    (mkParagraph 1 [mkRun "姓名：{{NA" 1; mkRun "ME}}　日期：{{DATE}}" 2])
    "姓名：" "　日期：{{DATE}}"
    eq_refl eq_refl eq_refl (list_elem_of_here 0 _) eq_refl eq_refl).
Defined.

(** C2.  A paragraph whose concatenated text is empty, or holds no
    placeholder of the context, is in the rendered document exactly as it
    was: same runs, same formatting.  A paragraph that rendering did
    modify is one plain run, and it had a non-empty text that the
    substitution changed. *)
Theorem paragraph_without_placeholder_untouched
    (context : Context) (doc : Document) (i : nat) (p : Paragraph) :
  doc_store doc !! i = Some p ->
  (paragraph_text p = "" \/ no_placeholder context (paragraph_text p) ->
   doc_store (render_document context doc) !! i = Some p) /\
  (forall p', doc_store (render_document context doc) !! i = Some p' ->
     p' <> p ->
     (exists t, p' = set_paragraph_text p t) /\
     paragraph_text p <> "" /\
     substitute context (paragraph_text p) <> paragraph_text p).
Proof.
  intros Hp. rewrite WalkFacts.lookup_render_document, Hp.
  cbn [fmap option_fmap option_map]. split.
  - intros H. f_equal. apply ParagraphFacts.iter_fixed.
    apply ParagraphFacts.replace_in_paragraph_fixed.
    destruct H as [H | H]; [by left | right].
    by apply SubstituteFacts.substitute_absent.
  - intros p' [= <-] Hne.
    destruct (ParagraphFacts.replace_in_paragraph_cases context p)
      as [[Hfix _] | (_ & Ht & Hs)].
    + by rewrite ParagraphFacts.iter_fixed in Hne.
    + split; [| done].
      by destruct (ParagraphFacts.iter_shape context p
                     (times_visited i (visits doc))).
Qed.

(** The two-run cell paragraph of the sample keeps both runs. *)
Lemma paragraph_without_placeholder_untouched_witness :
  doc_store (render_document (export_context sample_report) sample_document)
    !! 1
  = Some (mkParagraph 0 [mkRun "本周" 3; mkRun "总结" 4]).
Proof.
  apply (paragraph_without_placeholder_untouched
           (export_context sample_report) sample_document 1
           (mkParagraph 0 [mkRun "本周" 3; mkRun "总结" 4]) eq_refl).
  right. repeat constructor.
Defined.

(** C3.  The loop takes the keys in the order NAME, DATE, SUMMARY, PLAN and
    each turn works on the text the turn before left.  With a name that
    contains the text of the PLAN placeholder, a paragraph that reads
    [{{NAME}}] comes out with the plan's value where the name had the
    placeholder; a summary that contains the NAME placeholder is not
    substituted again, that turn being over. *)
Theorem later_key_is_substituted_into_value :
  (forall report, (export_context report).*1 = recognized_keys) /\
  exists (report : WeeklyReport) (template : Document),
    let context := export_context report in
    let output := render_document context template in
    context !! 0 = Some ("NAME", "见{{PLAN}}") /\
    context !! 3 = Some ("PLAN", "联调") /\
    paragraph_text <$> doc_store template !! 0 = Some "{{NAME}}" /\
    paragraph_text <$> doc_store output !! 0 = Some "见联调" /\
    substitute context "{{SUMMARY}}" = "{{NAME}}".
Proof.
  split; [apply KeyFacts.export_context_keys |].
  exists quoting_report, (one_paragraph "{{NAME}}").
  by vm_compute.
Qed.

(** C4.  When the file at the template path is not a document package,
    [render_docx_template] raises the load error and the files are as
    before: nothing was written at the output path, since saving is the
    last thing the function does.  [export_report] does not catch the
    error: unless formatting the file name has already raised, the load
    error reaches the caller, and the files are as before either way. *)
Theorem malformed_template_no_output
    (format_extended : gmap string string -> string -> Field -> option string)
    (BASE_DIR : string)
    (fs : gmap string File) (raw : list Byte.byte)
    (context : Context) (output_path : string)
    (report : WeeklyReport) (filename_pattern : string) :
  fs !! get_template_path BASE_DIR = Some (Malformed raw) ->
  render_docx_template fs (get_template_path BASE_DIR) context output_path
  = (Raise TemplateLoadError, fs) /\
  export_report format_extended BASE_DIR fs report filename_pattern
  = match export_filename format_extended filename_pattern report with
    | Return _ => (Raise TemplateLoadError, fs)
    | Raise e => (Raise e, fs)
    end.
Proof.
  intros H. split.
  - unfold render_docx_template. by rewrite H.
  - unfold export_report, has_template.
    rewrite bool_decide_eq_true_2 by (rewrite H; eauto).
    cbn [negb].
    destruct (export_filename format_extended filename_pattern report);
      [| done].
    unfold render_docx_template. by rewrite H.
Qed.

(** An export with unreadable bytes at the template path. *)
Lemma malformed_template_no_output_witness :
  render_docx_template broken_files (get_template_path "/srv/app")
    (export_context sample_report) "/srv/app/data/out.docx"
  = (Raise TemplateLoadError, broken_files) /\
  export_report no_extended "/srv/app" broken_files sample_report
    default_filename_pattern
  = (Raise TemplateLoadError, broken_files).
Proof.
  exact (malformed_template_no_output no_extended "/srv/app" broken_files []
           (export_context sample_report) "/srv/app/data/out.docx"
           sample_report default_filename_pattern eq_refl).
Defined.




(** C6 as stated fails: the pattern language has an escape.  A doubled
    brace stands for one literal brace, so [{{NAME}}] comes out as the
    text [{NAME}], where replacing the exact token would give the name in
    braces. *)
Lemma doubled_braces_are_an_escape :
  export_filename no_extended "{{NAME}}" sample_report = Return "{NAME}" /\
  exact_token_replacement "{{NAME}}" (safe_name sample_report)
    (isoformat (date sample_report)) = "{张三}" /\
  export_filename no_extended "{{NAME}}" sample_report
  <> Return (exact_token_replacement "{{NAME}}" (safe_name sample_report)
               (isoformat (date sample_report))).
Proof. vm_compute. split; [done | split; [done | discriminate]]. Qed.

(** C6, amended.  A pattern made of brace-free text, the fields [{NAME}]
    and [{DATE}], and the doubled braces [{{] and [}}] is formatted in one
    pass: each field becomes its value, put in as it is and not scanned
    again, each doubled brace becomes a single brace, the text stays.
    Field names are case-sensitive, and the default pattern with the name
    张三 and the date 2024-05-01 gives [2024-05-01_张三_周报.docx]. *)
Theorem filename_format_one_pass
    (format_extended : gmap string string -> string -> Field -> option string)
    (pieces : list Piece) (name_value date_value : string) :
  forallb well_formed pieces = true ->
  let kwargs : gmap string string :=
    {[ "NAME" := name_value; "DATE" := date_value ]} in
  str_format format_extended (pattern_of pieces) kwargs
  = Return (output_of name_value date_value pieces) /\
  str_format format_extended "{name}" kwargs = Raise FormatError /\
  str_format format_extended default_filename_pattern
    {[ "NAME" := "张三"; "DATE" := "2024-05-01" ]}
  = Return "2024-05-01_张三_周报.docx".
Proof.
  intros Hwf kwargs. split; [| split].
  - apply FormatFacts.fmt_pieces; [| | done]; unfold kwargs; by simplify_map_eq.
  - unfold str_format. cbn -[vformat]. cbn [vformat]. unfold format_field.
    change (arg_name _) with "name". unfold kwargs. by simplify_map_eq.
  - change default_filename_pattern
      with (pattern_of [DateField; Text "_"; NameField; Text "_周报.docx"]).
    by rewrite (FormatFacts.fmt_pieces _ _ _ "张三" "2024-05-01").
Qed.

(** A name that reads like a field is put in as it is. *)
Lemma filename_format_one_pass_witness :
  str_format no_extended "{{{NAME}_{DATE}}}"
    {[ "NAME" := "{DATE}"; "DATE" := "2024-05-01" ]}
  = Return "{{DATE}_2024-05-01}".
Proof.
  apply (filename_format_one_pass no_extended
           [OpenBrace; NameField; Text "_"; DateField; CloseBrace]
           "{DATE}" "2024-05-01" eq_refl).
Defined.

(** C7.  A document in which no paragraph that the walk reaches holds a
    placeholder of the context is left as it is by rendering: every
    paragraph keeps its text and its runs. *)
Theorem render_settled_document_unchanged
    (context : Context) (doc : Document) :
  (forall i p, i ∈ visits doc -> doc_store doc !! i = Some p ->
     no_placeholder context (paragraph_text p)) ->
  render_document context doc = doc.
Proof.
  intros H.
  assert (doc_store (render_document context doc) = doc_store doc) as Hs.
  { apply list_eq. intros i. rewrite WalkFacts.lookup_render_document.
    destruct (doc_store doc !! i) as [p|] eqn:Hp; [| done].
    cbn [fmap option_fmap option_map]. f_equal.
    destruct (KeyFacts.times_visited_cases i (visits doc)) as [-> | Hi];
      [done |].
    apply ParagraphFacts.iter_fixed, ParagraphFacts.replace_in_paragraph_fixed.
    right. apply SubstituteFacts.substitute_absent. by eapply H. }
  destruct doc as [store ps ts ss]. unfold render_document in *.
  cbn [doc_store doc_paragraphs doc_tables doc_sections] in *.
  by rewrite Hs.
Qed.

(** A rendered paragraph, rendered again. *)
Lemma render_settled_document_unchanged_witness :
  render_document (export_context sample_report) (one_paragraph "姓名：张三")
  = one_paragraph "姓名：张三".
Proof.
  apply render_settled_document_unchanged.
  intros i p Hi Hp.
  apply list_elem_of_singleton in Hi. subst i.
  injection Hp as <-. repeat constructor.
Defined.



(** C9 as stated fails: [{{FOO}}] contains the brace-delimited token
    [{FOO}], formatting raises nothing, and the file name is the literal
    text [{FOO}]. *)
Lemma unknown_token_in_doubled_braces_passes :
  PyStr.contains "{FOO}" "{{FOO}}" = true /\
  export_filename no_extended "{{FOO}}" sample_report = Return "{FOO}".
Proof. by vm_compute. Qed.

(** C9, amended.  When the scanner reads in the pattern a replacement
    field whose argument is neither NAME nor DATE ([{FOO}], the positional
    [{}] and [{0}], also with an attribute, an index, a conversion or a
    format specification after the name), formatting the file name raises.
    Doubled braces are not a field. *)
Theorem unknown_field_raises
    (format_extended : gmap string string -> string -> Field -> option string)
    (filename_pattern : string) (report : WeeklyReport) (f : Field) :
  Replacement f ∈ (scan InText filename_pattern).1 ->
  arg_name (field_name f) <> "NAME" ->
  arg_name (field_name f) <> "DATE" ->
  export_filename format_extended filename_pattern report = Raise FormatError.
Proof.
  intros Hin Hn Hd.
  destruct (export_filename format_extended filename_pattern report)
    as [s | e] eqn:Hfmt.
  - exfalso. unfold export_filename, str_format in Hfmt.
    destruct (scan InText filename_pattern) as [ms err]. cbn [fst] in Hin.
    destruct (FormatFacts.vformat_unknown format_extended
                (filename_kwargs report) ms f Hin) as [e He].
    { by apply FormatFacts.filename_kwargs_other. }
    by rewrite He in Hfmt.
  - f_equal. by eapply FormatFacts.format_raises_format_error.
Qed.

(** A known field followed by an unknown one. *)
Lemma unknown_field_raises_witness :
  export_filename no_extended "{DATE}_{FOO}.docx" sample_report
  = Raise FormatError.
Proof.
  apply (unknown_field_raises no_extended "{DATE}_{FOO}.docx" sample_report
           (mkField "FOO" None "")).
  - vm_compute. do 2 right. left.
  - vm_compute. discriminate.
  - vm_compute. discriminate.
Defined.

(** C10.  For a report without a name, or with the empty name, the two
    mechanisms fall back differently: the context of the document maps
    NAME to the empty string, so [{{NAME}}] disappears from a paragraph,
    while the file name gets 未命名 for [{NAME}]. *)
Theorem blank_name_fallbacks_differ
    (format_extended : gmap string string -> string -> Field -> option string)
    (report : WeeklyReport) :
  name report = None \/ name report = Some "" ->
  export_context report !! 0 = Some ("NAME", "") /\
  substitute (export_context report) "{{NAME}}" = "" /\
  filename_kwargs report !! "NAME" = Some "未命名" /\
  export_filename format_extended "{NAME}" report = Return "未命名" /\
  export_filename format_extended default_filename_pattern report
  = Return (isoformat (date report) +:+ "_未命名_周报.docx").
Proof.
  intros Hname.
  assert (PyStr.or_else (name report) "" = "") as Hctx
    by (by destruct Hname as [-> | ->]).
  assert (safe_name report = "未命名") as Hsafe
    by (unfold safe_name; by destruct Hname as [-> | ->]).
  pose proof (FormatFacts.filename_kwargs_name report) as Hn.
  pose proof (FormatFacts.filename_kwargs_date report) as Hd.
  rewrite Hsafe in Hn.
  split; [| split; [| split; [| split]]].
  - unfold export_context. by rewrite Hctx.
  - unfold export_context. rewrite Hctx.
    rewrite SubstituteFacts.substitute_cons.
    change (replace_key "{{NAME}}" ("NAME", "")) with "".
    apply SubstituteFacts.substitute_empty.
  - done.
  - unfold export_filename. change "{NAME}" with (pattern_of [NameField]).
    by rewrite (FormatFacts.fmt_pieces _ _ _ _ _ Hn Hd).
  - unfold export_filename.
    change default_filename_pattern
      with (pattern_of [DateField; Text "_"; NameField; Text "_周报.docx"]).
    by rewrite (FormatFacts.fmt_pieces _ _ _ _ _ Hn Hd).
Qed.

(** A report without a name. *)
Lemma blank_name_fallbacks_differ_witness :
  let report := mkWeeklyReport None (mkDate 2024 5 1) (Some "完成导出") None in
  export_context report !! 0 = Some ("NAME", "") /\
  substitute (export_context report) "{{NAME}}" = "" /\
  filename_kwargs report !! "NAME" = Some "未命名" /\
  export_filename no_extended "{NAME}" report = Return "未命名" /\
  export_filename no_extended default_filename_pattern report
  = Return "2024-05-01_未命名_周报.docx".
Proof.
  exact (blank_name_fallbacks_differ no_extended
           (mkWeeklyReport None (mkDate 2024 5 1) (Some "完成导出") None)
           (or_introl eq_refl)).
Defined.

(** * Facts about dates and their text *)

Module DateFacts.
Import StrFacts.

Lemma nat_of_digit (n : nat) : nat_of_ascii (digit n) = 48 + n mod 10.
Proof.
  unfold digit. apply nat_ascii_embedding.
  pose proof (Nat.mod_upper_bound n 10). lia.
Qed.

Lemma is_digit_digit (n : nat) : is_digit (digit n) = true.
Proof.
  unfold is_digit. rewrite nat_of_digit.
  pose proof (Nat.mod_upper_bound n 10).
  apply andb_true_iff. split; apply Nat.leb_le; lia.
Qed.

Lemma digit_value_digit (n : nat) : digit_value (digit n) = Z.of_nat (n mod 10).
Proof. unfold digit_value. rewrite nat_of_digit. f_equal. lia. Qed.

(** A digit is none of the characters the program gives a meaning to. *)
Lemma is_digit_neq (c d : ascii) :
  is_digit c = true -> is_digit d = false -> Ascii.eqb c d = false.
Proof.
  intros Hc Hd. destruct (Ascii.eqb_spec c d) as [-> |]; [congruence | done].
Qed.

Lemma snoc_cons (c d : ascii) (s : string) :
  snoc (String c s) d = String c (snoc s d).
Proof. done. Qed.

Lemma length_snoc (s : string) (c : ascii) :
  String.length (snoc s c) = S (String.length s).
Proof. unfold snoc. rewrite length_app. cbn. lia. Qed.

Lemma all_digits_snoc (s : string) (c : ascii) :
  all_digits (snoc s c) = all_digits s && is_digit c.
Proof.
  induction s as [|d s IH].
  - change (snoc "" c) with (String c ""). cbn [all_digits].
    by rewrite andb_true_r.
  - rewrite snoc_cons. cbn [all_digits]. by rewrite IH, andb_assoc.
Qed.

Lemma decimal_value_snoc (s : string) (c : ascii) (acc : Z) :
  decimal_value acc (snoc s c)
  = (decimal_value acc s * 10 + digit_value c)%Z.
Proof.
  revert acc. induction s as [|d s IH]; intros acc; [done |].
  rewrite snoc_cons. cbn [decimal_value]. apply IH.
Qed.

Lemma brace_free_snoc (s : string) (c : ascii) :
  brace_free (snoc s c)
  = brace_free s && (negb (Ascii.eqb c "{") && negb (Ascii.eqb c "}")).
Proof.
  induction s as [|d s IH].
  - change (snoc "" c) with (String c ""). cbn [brace_free].
    by rewrite !andb_true_r.
  - rewrite snoc_cons. cbn [brace_free]. rewrite IH.
    by rewrite !andb_assoc.
Qed.

Lemma length_zero_padded (w n : nat) : String.length (zero_padded w n) = w.
Proof.
  revert n. induction w as [|w IH]; intros n; [done |].
  cbn [zero_padded]. by rewrite length_snoc, IH.
Qed.

Lemma all_digits_zero_padded (w n : nat) : all_digits (zero_padded w n) = true.
Proof.
  revert n. induction w as [|w IH]; intros n; [done |].
  cbn [zero_padded]. by rewrite all_digits_snoc, IH, is_digit_digit.
Qed.

(** The text reads as the number, as long as the number fits the width. *)
Lemma decimal_value_zero_padded (w n : nat) :
  decimal_value 0 (zero_padded w n) = Z.of_nat (n mod 10 ^ w).
Proof.
  revert n. induction w as [|w IH]; intros n.
  - cbn [zero_padded decimal_value]. change (10 ^ 0) with 1.
    by rewrite Nat.mod_1_r.
  - cbn [zero_padded]. rewrite decimal_value_snoc, IH, digit_value_digit.
    rewrite Nat.pow_succ_r', Nat.Div0.mod_mul_r. lia.
Qed.

Lemma all_digits_brace_free (s : string) :
  all_digits s = true -> brace_free s = true.
Proof.
  induction s as [|c s IH]; [done |].
  cbn [all_digits brace_free]. intros [Hc Hs]%andb_true_iff.
  rewrite IH, andb_true_r by done.
  by rewrite !(is_digit_neq c) by done.
Qed.

Lemma brace_free_app (a b : string) :
  brace_free (a +:+ b) = brace_free a && brace_free b.
Proof.
  induction a as [|c a IH]; [done |].
  rewrite app_cons. cbn [brace_free]. by rewrite IH, andb_assoc.
Qed.

(** Text without a brace holds no placeholder, whatever the key. *)
Lemma brace_free_no_placeholder (key t : string) :
  brace_free t = true -> PyStr.contains (placeholder key) t = false.
Proof.
  induction t as [|c t IH]; [done |].
  cbn [brace_free]. intros [[Hc _]%andb_true_iff Ht]%andb_true_iff.
  rewrite ReplaceFacts.contains_cons, IH, orb_false_r by done.
  rewrite SubstituteFacts.placeholder_unfold. unfold PyStr.startswith.
  rewrite prefix_cons. apply andb_false_iff. left.
  apply bool_decide_eq_false. intros <-. by rewrite Ascii.eqb_refl in Hc.
Qed.

(** Splitting at a character that the parts do not hold gives the parts
    back. *)
Lemma split_char_digits (a : string) :
  all_digits a = true -> split_char "-" a = [a].
Proof.
  induction a as [|c a IH]; [done |].
  cbn [all_digits split_char]. intros [Hc Ha]%andb_true_iff.
  by rewrite (is_digit_neq c "-"), IH by done.
Qed.

Lemma split_char_digits_dash (a rest : string) :
  all_digits a = true ->
  split_char "-" (a +:+ String "-" rest) = a :: split_char "-" rest.
Proof.
  induction a as [|c a IH]; [done |].
  cbn [all_digits]. intros [Hc Ha]%andb_true_iff.
  rewrite app_cons. cbn [split_char].
  by rewrite (is_digit_neq c "-"), IH by done.
Qed.

Lemma split_isoformat (d : Date) :
  split_char "-" (isoformat d)
  = [zero_padded 4 (year d); zero_padded 2 (month d); zero_padded 2 (day d)].
Proof.
  unfold isoformat.
  change (split_char "-"
            (zero_padded 4 (year d) +:+
             String "-" (zero_padded 2 (month d) +:+
                         String "-" (zero_padded 2 (day d))))
          = [zero_padded 4 (year d); zero_padded 2 (month d);
             zero_padded 2 (day d)]).
  rewrite (split_char_digits_dash (zero_padded 4 (year d)))
    by apply all_digits_zero_padded.
  rewrite (split_char_digits_dash (zero_padded 2 (month d)))
    by apply all_digits_zero_padded.
  by rewrite split_char_digits by apply all_digits_zero_padded.
Qed.

Section WithInt.
Variable int_other : string -> option Z.

Lemma py_int_zero_padded (w n : nat) :
  S w <= 4300 ->
  py_int int_other (zero_padded (S w) n) = Some (Z.of_nat (n mod 10 ^ S w)).
Proof.
  intros Hw. unfold py_int.
  pose proof (length_zero_padded (S w) n) as Hlen.
  destruct (zero_padded (S w) n) as [|c s] eqn:Hz; [done |].
  rewrite <- Hz, all_digits_zero_padded, length_zero_padded.
  rewrite decimal_value_zero_padded.
  by rewrite (proj2 (Nat.leb_le _ _) Hw).
Qed.

End WithInt.

Lemma make_date_bounds (y m d : Z) (date : Date) :
  make_date y m d = Some date ->
  (1 <= y <= 9999 /\ 1 <= m <= 12 /\ 1 <= d <= days_in_month y m)%Z /\
  date = mkDate (Z.to_nat y) (Z.to_nat m) (Z.to_nat d).
Proof.
  unfold make_date. case_match eqn:H; [| done]. intros [= <-].
  repeat (apply andb_true_iff in H as [H ?]). split; [lia | done].
Qed.

Lemma days_in_month_bounds (y m : Z) : (28 <= days_in_month y m <= 31)%Z.
Proof. unfold days_in_month. repeat case_match; lia. Qed.


Lemma valid_date_make (d : Date) :
  valid_date d = true ->
  make_date (Z.of_nat (year d)) (Z.of_nat (month d)) (Z.of_nat (day d))
  = Some d.
Proof.
  unfold valid_date. case_match eqn:H; [intros _ | done].
  apply make_date_bounds in H as [_ ->].
  rewrite !Nat2Z.id. by destruct d.
Qed.

(** The parts of an [isoformat] text are read as the numbers they show. *)
Lemma parse_isoformat (int_other : string -> option Z) (d : Date) :
  valid_date d = true ->
  parse_date int_other (Some (isoformat d)) = Some d.
Proof.
  intros Hvalid. pose proof (valid_date_make d Hvalid) as Hmake.
  pose proof Hmake as [Hb _]%make_date_bounds.
  pose proof (days_in_month_bounds
                (Z.of_nat (year d)) (Z.of_nat (month d))) as Hdays.
  unfold parse_date. rewrite split_isoformat.
  cbn [mapM]. rewrite !py_int_zero_padded by lia.
  cbn [mbind option_bind mret option_ret].
  rewrite !Nat.mod_small by (cbn; lia). done.
Qed.

Lemma parse_date_make (int_other : string -> option Z)
    (date_str : option string) (d : Date) :
  parse_date int_other date_str = Some d ->
  exists s y m dd,
    date_str = Some s /\
    mapM (py_int int_other) (split_char "-" s) = Some [y; m; dd] /\
    make_date y m dd = Some d.
Proof.
  unfold parse_date. destruct date_str as [s|]; [| done].
  destruct (mapM (py_int int_other) (split_char "-" s))
    as [[|y [|m [|dd [|? ?]]]]|] eqn:Hparts; try done.
  intros H. by exists s, y, m, dd.
Qed.


End DateFacts.

(** * Facts about the table of reports *)

Module TableFacts.

Lemma lookup_le_max_id (rows : gmap nat WeeklyReport) (i : nat) (r : WeeklyReport) :
  rows !! i = Some r -> i <= max_id rows.
Proof.
  intros H. apply max_list_elem_of_le, elem_of_elements, elem_of_dom. eauto.
Qed.

(** The id of a new row is not in use. *)
Lemma lookup_next_id (rows : gmap nat WeeklyReport) :
  rows !! next_id rows = None.
Proof.
  destruct (rows !! next_id rows) as [r|] eqn:H; [| done].
  apply lookup_le_max_id in H. unfold next_id in H. lia.
Qed.

(** The new row is the last one. *)
Lemma max_id_insert_next (rows : gmap nat WeeklyReport) (r : WeeklyReport) :
  max_id (<[next_id rows := r]> rows) = next_id rows.
Proof.
  set (rows' := <[next_id rows := r]> rows).
  assert (rows' !! next_id rows = Some r) as Hnew by apply lookup_insert_eq.
  pose proof (lookup_le_max_id _ _ _ Hnew) as Hle.
  assert (max_id rows' ∈ elements (dom rows')) as Hin.
  { apply max_list_elem_of. intros Hnil.
    assert (next_id rows ∈ elements (dom rows')) as Hk
      by (apply elem_of_elements, elem_of_dom; eauto).
    rewrite Hnil in Hk. by apply elem_of_nil in Hk. }
  apply elem_of_elements, elem_of_dom in Hin as [r' Hr'].
  unfold rows' in Hr'. apply lookup_insert_Some in Hr' as [[? _] | [_ Hold]];
    [done |].
  apply lookup_le_max_id in Hold. unfold next_id in *. fold rows' in Hold. lia.
Qed.

End TableFacts.

(** * Facts about text without braces *)

Module TextFacts.
Import StrFacts.

Lemma substitute_brace_free (context : Context) (t : string) :
  brace_free t = true -> substitute context t = t.
Proof.
  intros Ht. apply SubstituteFacts.substitute_absent.
  apply Forall_forall. intros kv _.
  by apply DateFacts.brace_free_no_placeholder.
Qed.

Lemma brace_free_placeholder_value (context : Context) (key value : string) :
  Forall (fun kv => brace_free kv.2 = true) context ->
  (key, value) ∈ context -> brace_free value = true.
Proof.
  intros H Hin. rewrite Forall_forall in H. by apply (H (key, value)).
Qed.

Lemma brace_free_isoformat (d : Date) : brace_free (isoformat d) = true.
Proof.
  unfold isoformat. rewrite !DateFacts.brace_free_app.
  rewrite !(DateFacts.all_digits_brace_free (zero_padded _ _))
    by apply DateFacts.all_digits_zero_padded.
  done.
Qed.


End TextFacts.

(** * Facts about the routes *)

Module RouteFacts.

Section WithLibrary.
Variable strip : string -> string.
Variable lower : string -> string.
Variable int_other : string -> option Z.
Variable format_extended :
  gmap string string -> string -> Field -> option string.
Variable BASE_DIR : string.

Local Abbreviation handle' :=
  (handle strip lower int_other format_extended BASE_DIR).
Local Abbreviation serve' :=
  (serve strip lower int_other format_extended BASE_DIR).








End WithLibrary.

End RouteFacts.

(** * More about the code *)

(** X1.  The date that a form is filled with comes back as the same date:
    for every date that [datetime.date] can hold, the text of [isoformat]
    parses, in the [try] block of the two form routes, to that date. *)
Theorem posted_isoformat_parses_back
    (int_other : string -> option Z) (d : Date) :
  valid_date d = true ->
  parse_date int_other (Some (isoformat d)) = Some d.
Proof.
  apply DateFacts.parse_isoformat.
Qed.

(** A leap day. *)
Lemma posted_isoformat_parses_back_witness :
  parse_date no_int (Some "2024-02-29") = Some (mkDate 2024 2 29).
Proof.
  exact (posted_isoformat_parses_back no_int (mkDate 2024 2 29) eq_refl).
Defined.





(** X4.  A posted date that does not split at [-] into exactly three parts
    is refused by both form routes, before [int] is of any consequence,
    and nothing is stored: [new_report] adds no row, and [edit_report]
    keeps the row as it was, also the name, the summary and the plan that
    it had already assigned. *)
Theorem date_without_three_parts_is_refused
    (strip : string -> string) (int_other : string -> option Z)
    (st : AppState) (form : ReportForm) (date_str : string)
    (report_id : nat) (report : WeeklyReport) :
  form_date form = Some date_str ->
  length (split_char "-" date_str) <> 3 ->
  reports st !! report_id = Some report ->
  new_report strip int_other st form = (RedirectTo NewReport FlashError, st) /\
  edit_report strip int_other st report_id form
  = (RedirectTo (EditReport report_id) FlashError, st).
Proof.
  intros Hform Hparts Hreport.
  assert (parse_date int_other (form_date form) = None) as Hnone.
  { destruct (parse_date int_other (form_date form)) as [d|] eqn:Hd; [| done].
    apply DateFacts.parse_date_make
      in Hd as (s & y & m & dd & Hs & Hmap & _).
    rewrite Hform in Hs. injection Hs as <-.
    apply length_mapM in Hmap. cbn in Hmap. congruence. }
  unfold new_report, edit_report. by rewrite Hnone, Hreport.
Qed.

(** A year before the year 1: the sign makes a fourth, empty part. *)
Lemma date_without_three_parts_is_refused_witness :
  let st := mkAppState {[ 1 := sample_report ]} (Some "{NAME}") ∅ in
  let form := mkReportForm (Some "李四") (Some "-44-03-15") None None in
  new_report no_strip no_int st form = (RedirectTo NewReport FlashError, st) /\
  edit_report no_strip no_int st 1 form
  = (RedirectTo (EditReport 1) FlashError, st).
Proof.
  apply (date_without_three_parts_is_refused no_strip no_int
           (mkAppState {[ 1 := sample_report ]} (Some "{NAME}") ∅)
           (mkReportForm (Some "李四") (Some "-44-03-15") None None)
           "-44-03-15" 1 sample_report eq_refl).
  - vm_compute. lia.
  - reflexivity.
Defined.

(** X5.  A report that [new_report] accepts gets an id that no stored
    report has, so that every stored report is still there, unchanged; and
    it is the last one: [get_last_name] is then the stripped name that was
    posted, the empty string if none was. *)
Theorem new_report_is_last_and_overwrites_nothing
    (strip : string -> string) (int_other : string -> option Z)
    (st : AppState) (form : ReportForm) (d : Date) :
  parse_date int_other (form_date form) = Some d ->
  let st' := (new_report strip int_other st form).2 in
  reports st !! next_id (reports st) = None /\
  (forall i r, reports st !! i = Some r -> reports st' !! i = Some r) /\
  reports st' !! next_id (reports st) = Some (report_of_form strip form d) /\
  get_last_name st' = strip (PyStr.or_else (form_name form) "").
Proof.
  intros Hd. unfold new_report. rewrite Hd. cbn [snd].
  pose proof (TableFacts.lookup_next_id (reports st)) as Hfresh.
  split; [done | split; [| split]].
  - intros i r Hi. cbn [reports]. rewrite lookup_insert_ne; [done |].
    intros <-. congruence.
  - cbn [reports]. apply lookup_insert_eq.
  - unfold get_last_name, last_report. cbn [reports].
    rewrite TableFacts.max_id_insert_next, lookup_insert_eq.
    cbn [report_of_form name].
    by destruct (strip (PyStr.or_else (form_name form) "")).
Qed.

(** A second report, after the sample. *)
Lemma new_report_is_last_and_overwrites_nothing_witness :
  let st := mkAppState {[ 1 := sample_report ]} (Some "{NAME}") ∅ in
  let form := mkReportForm (Some "李四") (Some "2024-05-08") None None in
  let st' := (new_report no_strip no_int st form).2 in
  reports st !! 2 = None /\
  (forall i r, reports st !! i = Some r -> reports st' !! i = Some r) /\
  reports st' !! 2
  = Some (report_of_form no_strip form (mkDate 2024 5 8)) /\
  get_last_name st' = "李四".
Proof.
  exact (new_report_is_last_and_overwrites_nothing no_strip no_int
           (mkAppState {[ 1 := sample_report ]} (Some "{NAME}") ∅)
           (mkReportForm (Some "李四") (Some "2024-05-08") None None)
           (mkDate 2024 5 8) eq_refl).
Defined.

(** X6.  Deleting the report that [new_report] has just added gives back
    the state from before. *)
Theorem delete_undoes_new_report
    (strip : string -> string) (int_other : string -> option Z)
    (st : AppState) (form : ReportForm) (d : Date) :
  parse_date int_other (form_date form) = Some d ->
  delete_report (new_report strip int_other st form).2 (next_id (reports st))
  = (RedirectTo Index FlashSuccess, st).
Proof.
  intros Hd. unfold new_report. rewrite Hd. cbn [snd].
  unfold delete_report. cbn [reports export_config files].
  rewrite lookup_insert_eq, delete_insert_id
    by apply TableFacts.lookup_next_id.
  by destruct st.
Qed.

Lemma delete_undoes_new_report_witness :
  delete_report
    (new_report no_strip no_int initial_state
       (mkReportForm (Some "张三") (Some "2024-05-01") None None)).2 1
  = (RedirectTo Index FlashSuccess, initial_state).
Proof.
  exact (delete_undoes_new_report no_strip no_int initial_state
           (mkReportForm (Some "张三") (Some "2024-05-01") None None)
           (mkDate 2024 5 1) eq_refl).
Defined.



(** X8.  An upload whose name ends in [.docx] is saved at the template
    path as it comes, together with the posted pattern.  Its content is not
    looked at: when it is not a document package, every export that
    follows, of any stored report, fails, with the load error unless
    formatting the file name has failed before, and writes nothing. *)
Theorem uploaded_template_is_stored_unchecked
    (strip lower : string -> string)
    (format_extended : gmap string string -> string -> Field -> option string)
    (BASE_DIR : string)
    (st : AppState) (filename_pattern : option string) (f : Upload)
    (current : string) :
  export_config st = Some current ->
  upload_filename f <> "" ->
  endswith ".docx" (lower (upload_filename f)) = true ->
  let pattern' :=
    strip (PyStr.or_else filename_pattern default_filename_pattern) in
  let st' := (settings strip lower BASE_DIR st filename_pattern (Some f)).2 in
  files st' !! get_template_path BASE_DIR = Some (upload_content f) /\
  export_config st' = Some pattern' /\
  (forall raw report_id report,
     upload_content f = Malformed raw ->
     reports st !! report_id = Some report ->
     export_route format_extended BASE_DIR st' report_id
     = (Crashed
          (Uncaught
             match export_filename format_extended pattern' report with
             | Return _ => TemplateLoadError
             | Raise e => e
             end),
        st')).
Proof.
  intros Hcfg Hname Hext pattern'. unfold settings. rewrite Hcfg.
  destruct (upload_filename f) as [|c s] eqn:Hf; [done |].
  rewrite Hext. cbn [negb snd files export_config].
  split; [apply lookup_insert_eq | split; [done |]].
  intros raw i report Hraw Hreport.
  unfold export_route. cbn [reports files export_config].
  rewrite Hreport. unfold has_template at 1.
  rewrite lookup_insert_eq, bool_decide_eq_true_2 by eauto. cbn [negb].
  unfold export_report, has_template.
  rewrite lookup_insert_eq, bool_decide_eq_true_2 by eauto. cbn [negb].
  fold pattern'.
  destruct (export_filename format_extended pattern' report) as [name'|e];
    [| done].
  unfold render_docx_template. by rewrite lookup_insert_eq, Hraw.
Qed.

(** A text file renamed to [.DOCX] replaces the template; the export of
    the sample report then fails on loading it. *)
Lemma uploaded_template_is_stored_unchecked_witness :
  let st := mkAppState {[ 1 := sample_report ]} (Some "{NAME}") sample_files in
  let f := mkUpload "notes.DOCX" (Malformed []) in
  let lower := fun _ : string => "notes.docx" in
  let st' := (settings no_strip lower "/srv/app" st None (Some f)).2 in
  files st' !! get_template_path "/srv/app" = Some (Malformed []) /\
  export_route no_extended "/srv/app" st' 1
  = (Crashed (Uncaught TemplateLoadError), st').
Proof.
  pose proof (uploaded_template_is_stored_unchecked no_strip
                (fun _ : string => "notes.docx") no_extended "/srv/app"
                (mkAppState {[ 1 := sample_report ]} (Some "{NAME}") sample_files)
                None (mkUpload "notes.DOCX" (Malformed [])) "{NAME}" eq_refl)
    as H.
  destruct H as (Hfile & _ & Hexport); [by vm_compute | reflexivity |].
  split; [exact Hfile |].
  exact (Hexport [] 1 sample_report eq_refl eq_refl).
Defined.


(** X10.  The text of a date is ten characters long and holds no brace,
    hence no placeholder of any key: putting the date into a paragraph or
    into a file name cannot bring in anything that is substituted again. *)
Theorem isoformat_is_ten_plain_characters (d : Date) :
  String.length (isoformat d) = 10 /\
  brace_free (isoformat d) = true /\
  forall key, PyStr.contains (placeholder key) (isoformat d) = false.
Proof.
  split; [| split].
  - unfold isoformat.
    by rewrite !StrFacts.length_app, !DateFacts.length_zero_padded.
  - apply TextFacts.brace_free_isoformat.
  - intros key. apply DateFacts.brace_free_no_placeholder,
      TextFacts.brace_free_isoformat.
Qed.

(** X11.  A paragraph whose text holds no brace is never touched, whatever
    the keys and the values of the context. *)
Theorem paragraph_without_braces_is_never_altered
    (context : Context) (p : Paragraph) :
  brace_free (paragraph_text p) = true ->
  substitute context (paragraph_text p) = paragraph_text p /\
  replace_in_paragraph context p = p.
Proof.
  intros H. pose proof (TextFacts.substitute_brace_free context _ H) as Hs.
  split; [done |]. apply ParagraphFacts.replace_in_paragraph_fixed. by right.
Qed.

Lemma paragraph_without_braces_is_never_altered_witness :
  let p := mkParagraph 0 [mkRun "本周" 3; mkRun "总结" 4] in
  substitute (export_context quoting_report) (paragraph_text p)
  = paragraph_text p /\
  replace_in_paragraph (export_context quoting_report) p = p.
Proof.
  exact (paragraph_without_braces_is_never_altered
           (export_context quoting_report)
           (mkParagraph 0 [mkRun "本周" 3; mkRun "总结" 4]) eq_refl).
Defined.

(** X12.  With values that hold no brace, a placeholder of a recognized
    key that stands between text without braces is replaced by its value
    and nothing else changes: the text before and the text after are as
    they were. *)
Theorem placeholder_between_plain_text_is_replaced_exactly
    (context before after : Context) (key value pre post : string) :
  context.*1 = recognized_keys ->
  context = before ++ (key, value) :: after ->
  Forall (fun kv => brace_free kv.2 = true) context ->
  brace_free pre = true ->
  brace_free post = true ->
  substitute context (pre +:+ placeholder key +:+ post)
  = pre +:+ value +:+ post.
Proof.
  intros Hkeys Hctx Hvalues Hpre Hpost.
  destruct (KeyFacts.recognized_keys_apart _ _ _ _ _ Hkeys Hctx) as [Hb Hk].
  assert (brace_free value = true) as Hvalue.
  { apply (TextFacts.brace_free_placeholder_value context key); [done |].
    rewrite Hctx. apply elem_of_app. right. by left. }
  rewrite Hctx, SubstituteFacts.substitute_occurrence by done.
  rewrite !(TextFacts.substitute_brace_free (before ++ _)) by done.
  apply TextFacts.substitute_brace_free.
  by rewrite !DateFacts.brace_free_app, Hpre, Hvalue, Hpost.
Qed.

Lemma placeholder_between_plain_text_is_replaced_exactly_witness :
  substitute (export_context sample_report) "日期：{{DATE}}（周报）"
  = "日期：2024-05-01（周报）".
Proof.
  exact (placeholder_between_plain_text_is_replaced_exactly
           (export_context sample_report)
           [("NAME", "张三")] [("SUMMARY", "完成导出"); ("PLAN", "联调")]
           "DATE" "2024-05-01" "日期：" "（周报）"
           eq_refl eq_refl
           ltac:(repeat constructor) eq_refl eq_refl).
Defined.


(** X14.  Posting the edit form with the date it was filled with keeps
    the date of the report, provided the stored reports are well formed;
    the edit replaces that one report and creates or removes none. *)
Theorem edit_with_prefilled_date_keeps_date
    (strip : string -> string) (int_other : string -> option Z)
    (st : AppState) (report_id : nat) (form : ReportForm)
    (default_name : option string) (default_date : string) :
  well_formed_state st ->
  edit_report_defaults st report_id = Some (default_name, default_date) ->
  form_date form = Some default_date ->
  exists report,
    reports st !! report_id = Some report /\
    name report = default_name /\
    let result := edit_report strip int_other st report_id form in
    result.1 = RedirectTo Index FlashSuccess /\
    reports result.2 !! report_id
    = Some (report_of_form strip form (date report)) /\
    dom (reports result.2) = dom (reports st) /\
    (forall j, j <> report_id -> reports result.2 !! j = reports st !! j).
Proof.
  intros [Hreports _] Hdefaults Hform. unfold edit_report_defaults in Hdefaults.
  destruct (reports st !! report_id) as [report|] eqn:Hreport; [| done].
  injection Hdefaults as <- <-. exists report. split; [done | split; [done |]].
  destruct (Hreports _ _ Hreport) as [Hvalid _].
  unfold edit_report. rewrite Hreport, Hform.
  rewrite (DateFacts.parse_isoformat int_other _ Hvalid).
  cbn [fst snd reports]. split; [done | split; [| split]].
  - apply lookup_insert_eq.
  - apply dom_insert_lookup_L. eauto.
  - intros j Hj. by rewrite lookup_insert_ne.
Qed.

(** The sample report, posted back with another summary. *)
Lemma edit_with_prefilled_date_keeps_date_witness :
  let st := mkAppState {[ 1 := sample_report ]} (Some "{NAME}") ∅ in
  let form := mkReportForm (Some "张三") (Some "2024-05-01") (Some "改") None in
  exists report,
    reports st !! 1 = Some report /\
    name report = Some "张三" /\
    let result := edit_report no_strip no_int st 1 form in
    result.1 = RedirectTo Index FlashSuccess /\
    reports result.2 !! 1 = Some (report_of_form no_strip form (date report)) /\
    dom (reports result.2) = dom (reports st) /\
    (forall j, j <> 1 -> reports result.2 !! j = reports st !! j).
Proof.
  apply (edit_with_prefilled_date_keeps_date no_strip no_int
           (mkAppState {[ 1 := sample_report ]} (Some "{NAME}") ∅) 1
           (mkReportForm (Some "张三") (Some "2024-05-01") (Some "改") None)
           (Some "张三") "2024-05-01").
  - split; [| by eexists]. cbn [reports].
    intros i r [<- <-]%lookup_singleton_Some.
    repeat split; by eexists.
  - reflexivity.
  - reflexivity.
Defined.


(** X16.  The pattern is stored as it is typed and only read at export
    time: with a pattern that has, after text without braces, a closing
    brace that is not doubled, the export of every stored report fails
    with the format error, although the template is there, and writes
    nothing. *)
Theorem single_closing_brace_fails_every_export
    (format_extended : gmap string string -> string -> Field -> option string)
    (BASE_DIR : string) (st : AppState) (text rest : string)
    (report_id : nat) (report : WeeklyReport) :
  export_config st = Some (text +:+ "}" +:+ rest) ->
  brace_free text = true ->
  PyStr.startswith "}" rest = false ->
  reports st !! report_id = Some report ->
  has_template BASE_DIR (files st) = true ->
  export_route format_extended BASE_DIR st report_id
  = (Crashed (Uncaught FormatError), st).
Proof.
  intros Hcfg Htext Hrest Hreport Htemplate.
  unfold export_route. rewrite Hreport, Htemplate, Hcfg. cbn [negb].
  unfold export_report. rewrite Htemplate. cbn [negb].
  unfold export_filename.
  rewrite FormatFacts.fmt_text, FormatFacts.fmt_single_close by done.
  cbn [then_rest]. rewrite <- Hcfg. by destruct st.
Qed.

(** A pattern with one closing brace too many. *)
Lemma single_closing_brace_fails_every_export_witness :
  let st :=
    mkAppState {[ 1 := sample_report ]} (Some "周报}.docx") sample_files in
  export_route no_extended "/srv/app" st 1
  = (Crashed (Uncaught FormatError), st).
Proof.
  exact (single_closing_brace_fails_every_export no_extended "/srv/app"
           (mkAppState {[ 1 := sample_report ]} (Some "周报}.docx")
              sample_files)
           "周报" ".docx" 1 sample_report eq_refl eq_refl eq_refl eq_refl
           eq_refl).
Defined.
